(** * Document metadata extractor: dispatcher, extractors, hasher, persistence

    A shallow embedding of [document_metadata_extractor.py] and the
    properties its specification states about it.

    Python values are modelled as the code has them:
    - a [str] is a sequence of Unicode code points ([list N]);
    - a [dict] is an association list in insertion order with unique keys;
    - an exception that a call may raise is the [Raise] branch of [result];
    - the parsing libraries (PyPDF2, python-docx, openpyxl, python-pptx,
      Pillow, email, csv), the Unicode case tables and the wall clock are
      not part of the repository: they are the fields of [Env] and the
      clock argument of [save_metadata];
    - the storage layer under [sqlite3] can fail at any call: what it does
      at one call is the [storage] argument of [save_metadata]. *)

From Stdlib Require Import ZArith NArith List String Ascii Bool Lia.
From Stdlib Require Import Permutation Sorted DecimalString.
Import ListNotations.

Set Implicit Arguments.
Set Warnings "-register-all".
Local Open Scope Z_scope.

(* ===================================================================== *)
(** ** Python strings *)
(* ===================================================================== *)

(** A Python [str]: the sequence of its code points. *)
Definition str := list N.

(** A literal of the source, written in ASCII. *)
Definition lit (s : string) : str := map N_of_ascii (list_ascii_of_string s).

Definition str_eqb (a b : str) : bool :=
  if list_eq_dec N.eq_dec a b then true else false.

(** [a < b] on [str]: lexicographic on code points. *)
Fixpoint str_ltb (a b : str) : bool :=
  match a, b with
  | [], [] => false
  | [], _ :: _ => true
  | _ :: _, [] => false
  | x :: a', y :: b' =>
      if (x <? y)%N then true
      else if (y <? x)%N then false
      else str_ltb a' b'
  end.

Definition str_leb (a b : str) : bool := negb (str_ltb b a).

(** [needle in haystack] on [str]. *)
Fixpoint startswith (s prefix : str) : bool :=
  match prefix, s with
  | [], _ => true
  | _ :: _, [] => false
  | p :: prefix', c :: s' => (p =? c)%N && startswith s' prefix'
  end.

Fixpoint contains (haystack needle : str) : bool :=
  startswith haystack needle ||
  match haystack with
  | [] => false
  | _ :: rest => contains rest needle
  end.

(** [s.rfind(c)] for a one-character [c]: the highest index, or -1. *)
Fixpoint rfind_from (s : str) (c : N) (i : Z) (found : Z) : Z :=
  match s with
  | [] => found
  | x :: rest => rfind_from rest c (i + 1) (if (x =? c)%N then i else found)
  end.

Definition rfind (s : str) (c : N) : Z := rfind_from s c 0 (-1).

(** Slices [s[:i]] and [s[i:]] with [0 <= i]. *)
Definition slice_to (s : str) (i : Z) : str := firstn (Z.to_nat i) s.
Definition slice_from (s : str) (i : Z) : str := skipn (Z.to_nat i) s.

(** [str.lower()].  CPython lowers an all-ASCII string byte by byte and
    sends every other string through the Unicode case tables, which are the
    parameter [unicode_lower]. *)
Definition is_ascii (c : N) : bool := (c <? 128)%N.

Definition ascii_lower (c : N) : N :=
  if ((65 <=? c) && (c <=? 90))%N then (c + 32)%N else c.

Definition lower_with (unicode_lower : str -> str) (s : str) : str :=
  if forallb is_ascii s then map ascii_lower s else unicode_lower s.

(** [str(n)] for an [int]. *)
Definition str_int (n : Z) : str := lit (NilZero.string_of_int (Z.to_int n)).

(* ===================================================================== *)
(** ** Exceptions *)
(* ===================================================================== *)

(** An exception of class [Exception]: its class name and [str(e)]. *)
Record exn := mkExn { exn_type : str; exn_str : str }.

Inductive result (A : Type) : Type :=
| Ok (a : A)
| Raise (e : exn).
Arguments Ok {A} a.
Arguments Raise {A} e.

Definition bind {A B} (m : result A) (k : A -> result B) : result B :=
  match m with
  | Ok a => k a
  | Raise e => Raise e
  end.

Notation "x <- m ;; k" := (bind m (fun x => k))
  (at level 61, m at next level, right associativity).

(** [try: body / except Exception as e: handler e]. *)
Definition try_except {A} (body : result A) (handler : exn -> result A) : result A :=
  match body with
  | Ok a => Ok a
  | Raise e => handler e
  end.

(* ===================================================================== *)
(** ** Metadata values and dicts *)
(* ===================================================================== *)

(** The values an extractor stores in a metadata mapping. *)
Inductive value :=
| VNone
| VInt (n : Z)
| VStr (s : str)
| VList (items : list value).

(** A [dict] with [str] keys, in insertion order. *)
Definition dict := list (str * value).

Definition wf_dict (d : dict) : Prop := NoDup (map fst d).

Fixpoint dict_get (d : dict) (k : str) : option value :=
  match d with
  | [] => None
  | (k', v) :: rest => if str_eqb k' k then Some v else dict_get rest k
  end.

(** [d[k] = v]: overwrite in place, or append. *)
Fixpoint dict_set (d : dict) (k : str) (v : value) : dict :=
  match d with
  | [] => [(k, v)]
  | (k', v') :: rest =>
      if str_eqb k' k then (k', v) :: rest else (k', v') :: dict_set rest k v
  end.

(** The error result [{"error": msg}]. *)
Definition error_result (msg : str) : dict := [(lit "error", VStr msg)].

(** Objects whose only use is [str(obj)]: PDF info values, EXIF values,
    datetimes. *)
Inductive pyobj :=
| ObjNone
| ObjStr (s : str)
| ObjInt (n : Z)
| ObjOther (shown : str).

Definition py_str (o : pyobj) : str :=
  match o with
  | ObjNone => lit "None"
  | ObjStr s => s
  | ObjInt n => str_int n
  | ObjOther shown => shown
  end.

(* ===================================================================== *)
(** ** os.path (posixpath) *)
(* ===================================================================== *)

Definition sep : N := 47.     (* "/" *)
Definition extsep : N := 46.  (* "." *)

(** The loop of [genericpath._splitext] that skips leading dots: [true]
    when some character in [p[filenameIndex:dotIndex]] is not a dot. *)
Fixpoint has_non_dot (p : str) (filenameIndex : Z) (steps : nat) : bool :=
  match steps with
  | O => false
  | S steps' =>
      if negb (str_eqb (slice_to (slice_from p filenameIndex) 1) [extsep])
      then true
      else has_non_dot p (filenameIndex + 1) steps'
  end.

(** [os.path.splitext(p)]. *)
Definition splitext (p : str) : str * str :=
  let sepIndex := rfind p sep in
  let dotIndex := rfind p extsep in
  if (dotIndex >? sepIndex) &&
     has_non_dot p (sepIndex + 1) (Z.to_nat (dotIndex - (sepIndex + 1)))
  then (slice_to p dotIndex, slice_from p dotIndex)
  else (p, []).

(** [os.path.basename(p)]. *)
Definition basename (p : str) : str :=
  let i := rfind p sep + 1 in
  slice_from p i.

(** [seq[i]] on a Python sequence; an index out of range raises. *)
Definition getitem {A} (l : list A) (i : Z) : result A :=
  let n := Z.of_nat (List.length l) in
  let j := if i <? 0 then i + n else i in
  if (j <? 0) || (n <=? j)
  then Raise (mkExn (lit "IndexError") (lit "sequence index out of range"))
  else match nth_error l (Z.to_nat j) with
       | Some a => Ok a
       | None => Raise (mkExn (lit "IndexError") (lit "sequence index out of range"))
       end.

(* ===================================================================== *)
(** ** What the parsing libraries hand back *)
(* ===================================================================== *)

(** PyPDF2: a reader, its document-information entries and its pages. *)
Record PageObject := { extract_text : result str }.
Record PdfReader := {
  pdf_metadata : result (option (list (str * pyobj)));
  pdf_pages : result (list PageObject)
}.

(** python-docx and python-pptx share the core-properties part. *)
Record CoreProperties := {
  author : str;
  created : pyobj;
  last_modified_by : str;
  modified : pyobj;
  title : str
}.
Record Paragraph := { text : str }.
Record Document := {
  doc_core_properties : CoreProperties;
  paragraphs : list Paragraph
}.

Definition Slide := unit.
Record Presentation := {
  slides : list Slide;
  prs_core_properties : CoreProperties
}.

(** openpyxl. *)
Record WorkbookProperties := {
  creator : option str;
  wb_created : pyobj;
  wb_modified : pyobj;
  lastModifiedBy : option str
}.
Record Workbook := {
  sheetnames : list str;
  properties : WorkbookProperties
}.

(** Pillow: an opened image; [_getexif] is absent on some image classes
    (the attribute access raises) and returns [None] without an EXIF block. *)
Record Image := {
  format : option str;
  width : Z;
  height : Z;
  mode : str;
  _getexif : result (option (list (Z * pyobj)))
}.

(** email: a parsed message. *)
Record Part := { get_content_disposition : option str }.
Record Message := {
  msg_get : str -> option str;
  walk : list Part
}.

(** csv: the reader is an iterator over rows that may fail part-way. *)
Record csv_reader := {
  csv_rows : list (list str);
  csv_failure : option exn
}.

(** [next(csv_reader, None)]: the row and the advanced iterator. *)
Definition next_or_None (r : csv_reader) : result (option (list str) * csv_reader) :=
  match csv_rows r with
  | row :: rest => Ok (Some row, {| csv_rows := rest; csv_failure := csv_failure r |})
  | [] => match csv_failure r with
          | Some e => Raise e
          | None => Ok (None, r)
          end
  end.

(** [sum(1 for _ in csv_reader)]. *)
Definition count_remaining (r : csv_reader) : result Z :=
  match csv_failure r with
  | Some e => Raise e
  | None => Ok (Z.of_nat (List.length (csv_rows r)))
  end.

(** Everything the module imports and the file system behind it. *)
Record Env := {
  unicode_lower : str -> str;
  open_PdfReader : str -> result PdfReader;
  open_Document : str -> result Document;
  load_workbook : str -> result Workbook;
  open_Presentation : str -> result Presentation;
  Image_open : str -> result Image;
  TAGS : Z -> option str;
  message_from_file : str -> result Message;
  open_csv_reader : str -> result csv_reader
}.

Definition opt_value (o : option str) : value :=
  match o with
  | Some s => VStr s
  | None => VNone
  end.

(* ===================================================================== *)
(** ** DocumentMetadataExtractor *)
(* ===================================================================== *)

Section DocumentMetadataExtractor.

Variable env : Env.

Definition lower (s : str) : str := lower_with (unicode_lower env) s.

(** The [try] block of [extract_pdf_metadata]. *)
Definition pdf_try (file_path : str) : result dict :=
  let metadata : dict := [] in
  pdf <- open_PdfReader env file_path ;;
  info <- pdf_metadata pdf ;;
  let metadata :=
    match info with
    | Some ((_ :: _) as entries) =>
        fold_left
          (fun (metadata : dict) (kv : str * pyobj) =>
             let (key, v) := kv in
             let clean_key := if startswith key (lit "/") then slice_from key 1 else key in
             dict_set metadata clean_key (VStr (py_str v)))
          entries metadata
    | _ => metadata
    end in
  pages <- pdf_pages pdf ;;
  let metadata := dict_set metadata (lit "page_count") (VInt (Z.of_nat (List.length pages))) in
  page <- getitem pages 0 ;;
  page_text <- extract_text page ;;
  let metadata := dict_set metadata (lit "first_page_preview") (VStr (slice_to page_text 200)) in
  Ok metadata.

Definition extract_pdf_metadata (file_path : str) : result dict :=
  try_except (pdf_try file_path)
    (fun e => Ok (error_result (lit "Failed to extract PDF metadata: " ++ exn_str e))).

(** The [try] block of [extract_docx_metadata]. *)
Definition docx_try (file_path : str) : result dict :=
  let metadata : dict := [] in
  doc <- open_Document env file_path ;;
  let core_properties := doc_core_properties doc in
  let metadata := dict_set metadata (lit "author") (VStr (author core_properties)) in
  let metadata := dict_set metadata (lit "created") (VStr (py_str (created core_properties))) in
  let metadata := dict_set metadata (lit "last_modified_by") (VStr (last_modified_by core_properties)) in
  let metadata := dict_set metadata (lit "modified") (VStr (py_str (modified core_properties))) in
  let metadata := dict_set metadata (lit "title") (VStr (title core_properties)) in
  let metadata := dict_set metadata (lit "paragraph_count") (VInt (Z.of_nat (List.length (paragraphs doc)))) in
  preview <- match paragraphs doc with
             | _ :: _ => (p0 <- getitem (paragraphs doc) 0 ;; Ok (slice_to (text p0) 200))
             | [] => Ok (lit "")
             end ;;
  let metadata := dict_set metadata (lit "text_preview") (VStr preview) in
  Ok metadata.

Definition extract_docx_metadata (file_path : str) : result dict :=
  try_except (docx_try file_path)
    (fun e => Ok (error_result (lit "Failed to extract Word metadata: " ++ exn_str e))).

(** The [try] block of [extract_xlsx_metadata]. *)
Definition xlsx_try (file_path : str) : result dict :=
  let metadata : dict := [] in
  workbook <- load_workbook env file_path ;;
  let metadata := dict_set metadata (lit "sheet_names") (VList (map VStr (sheetnames workbook))) in
  let metadata := dict_set metadata (lit "sheet_count") (VInt (Z.of_nat (List.length (sheetnames workbook)))) in
  let metadata := dict_set metadata (lit "creator") (opt_value (creator (properties workbook))) in
  let metadata := dict_set metadata (lit "created") (VStr (py_str (wb_created (properties workbook)))) in
  let metadata := dict_set metadata (lit "modified") (VStr (py_str (wb_modified (properties workbook)))) in
  let metadata := dict_set metadata (lit "last_modified_by") (opt_value (lastModifiedBy (properties workbook))) in
  Ok metadata.

Definition extract_xlsx_metadata (file_path : str) : result dict :=
  try_except (xlsx_try file_path)
    (fun e => Ok (error_result (lit "Failed to extract Excel metadata: " ++ exn_str e))).

(** The [try] block of [extract_pptx_metadata]. *)
Definition pptx_try (file_path : str) : result dict :=
  let metadata : dict := [] in
  presentation <- open_Presentation env file_path ;;
  let metadata := dict_set metadata (lit "slide_count") (VInt (Z.of_nat (List.length (slides presentation)))) in
  let core_properties := prs_core_properties presentation in
  let metadata := dict_set metadata (lit "author") (VStr (author core_properties)) in
  let metadata := dict_set metadata (lit "created") (VStr (py_str (created core_properties))) in
  let metadata := dict_set metadata (lit "modified") (VStr (py_str (modified core_properties))) in
  let metadata := dict_set metadata (lit "title") (VStr (title core_properties)) in
  Ok metadata.

Definition extract_pptx_metadata (file_path : str) : result dict :=
  try_except (pptx_try file_path)
    (fun e => Ok (error_result (lit "Failed to extract PowerPoint metadata: " ++ exn_str e))).

(** The [try] block of [extract_image_metadata]. *)
Definition image_try (file_path : str) : result dict :=
  let metadata : dict := [] in
  img <- Image_open env file_path ;;
  let metadata := dict_set metadata (lit "format") (opt_value (format img)) in
  let metadata := dict_set metadata (lit "size")
                    (VStr (str_int (width img) ++ lit "x" ++ str_int (height img))) in
  let metadata := dict_set metadata (lit "mode") (VStr (mode img)) in
  exif_data <- _getexif img ;;
  let metadata :=
    match exif_data with
    | Some ((_ :: _) as entries) =>
        fold_left
          (fun (metadata : dict) (kv : Z * pyobj) =>
             let (tag_id, v) := kv in
             let tag := match TAGS env tag_id with
                        | Some name => name
                        | None => str_int tag_id
                        end in
             dict_set metadata (lit "exif_" ++ tag) (VStr (py_str v)))
          entries metadata
    | _ => metadata
    end in
  Ok metadata.

Definition extract_image_metadata (file_path : str) : result dict :=
  try_except (image_try file_path)
    (fun e => Ok (error_result (lit "Failed to extract image metadata: " ++ exn_str e))).

Definition header_or_empty (msg : Message) (name : str) : str :=
  match msg_get msg name with
  | Some v => v
  | None => lit ""
  end.

(** The [try] block of [extract_email_metadata]. *)
Definition email_try (file_path : str) : result dict :=
  let metadata : dict := [] in
  msg <- message_from_file env file_path ;;
  let metadata := dict_set metadata (lit "subject") (VStr (header_or_empty msg (lit "Subject"))) in
  let metadata := dict_set metadata (lit "from") (VStr (header_or_empty msg (lit "From"))) in
  let metadata := dict_set metadata (lit "to") (VStr (header_or_empty msg (lit "To"))) in
  let metadata := dict_set metadata (lit "date") (VStr (header_or_empty msg (lit "Date"))) in
  let metadata := dict_set metadata (lit "cc") (VStr (header_or_empty msg (lit "Cc"))) in
  let attachment_count :=
    fold_left
      (fun (attachment_count : Z) (part : Part) =>
         match get_content_disposition part with
         | Some d => if str_eqb d (lit "attachment")
                     then attachment_count + 1 else attachment_count
         | None => attachment_count
         end)
      (walk msg) 0 in
  let metadata := dict_set metadata (lit "attachment_count") (VInt attachment_count) in
  Ok metadata.

Definition extract_email_metadata (file_path : str) : result dict :=
  try_except (email_try file_path)
    (fun e => Ok (error_result (lit "Failed to extract email metadata: " ++ exn_str e))).

(** The [try] block of [extract_csv_metadata]. *)
Definition csv_try (file_path : str) : result dict :=
  let metadata : dict := [] in
  reader <- open_csv_reader env file_path ;;
  first <- next_or_None reader ;;
  let (headers, reader) := first in
  row_count <- count_remaining reader ;;
  let truthy := match headers with
                | Some (_ :: _) => true
                | _ => false
                end in
  let header_row := match headers with
                    | Some row => row
                    | None => []
                    end in
  let metadata := dict_set metadata (lit "column_count")
                    (VInt (if truthy then Z.of_nat (List.length header_row) else 0)) in
  let metadata := dict_set metadata (lit "column_names")
                    (VList (if truthy then map VStr header_row else [])) in
  let metadata := dict_set metadata (lit "row_count") (VInt row_count) in
  Ok metadata.

Definition extract_csv_metadata (file_path : str) : result dict :=
  try_except (csv_try file_path)
    (fun e => Ok (error_result (lit "Failed to extract CSV metadata: " ++ exn_str e))).

(** [self.supported_extensions]. *)
Definition supported_extensions : list (str * (str -> result dict)) :=
  [ (lit ".pdf", extract_pdf_metadata);
    (lit ".docx", extract_docx_metadata);
    (lit ".xlsx", extract_xlsx_metadata);
    (lit ".pptx", extract_pptx_metadata);
    (lit ".jpg", extract_image_metadata);
    (lit ".jpeg", extract_image_metadata);
    (lit ".png", extract_image_metadata);
    (lit ".eml", extract_email_metadata);
    (lit ".csv", extract_csv_metadata) ].

Fixpoint handler_of (table : list (str * (str -> result dict))) (extension : str)
  : option (str -> result dict) :=
  match table with
  | [] => None
  | (k, h) :: rest => if str_eqb k extension then Some h else handler_of rest extension
  end.

Definition extract_metadata (file_path : str) : result dict :=
  let (_, extension) := splitext file_path in
  let extension := lower extension in
  match handler_of supported_extensions extension with
  | Some handler => handler file_path
  | None => Ok (error_result (lit "Unsupported file type: " ++ extension))
  end.

End DocumentMetadataExtractor.

(* ===================================================================== *)
(** ** json.dumps *)
(* ===================================================================== *)

Definition hexdigits : list N := lit "0123456789abcdef".

Definition hex_digit (n : Z) : N := nth (Z.to_nat n) hexdigits 48%N.

(** ['{:04x}'.format(n)] for [n < 0x10000]. *)
Definition hex4 (n : Z) : str :=
  [ hex_digit (Z.land (Z.shiftr n 12) 15);
    hex_digit (Z.land (Z.shiftr n 8) 15);
    hex_digit (Z.land (Z.shiftr n 4) 15);
    hex_digit (Z.land n 15) ].

Definition backslash : N := 92.
Definition quote : N := 34.

(** The replacement of one character by [json.encoder]'s
    [py_encode_basestring_ascii]: printable ASCII other than the quote and the
    backslash stays, the short escapes of [ESCAPE_DCT] come next, everything
    else is written as one or two [\uXXXX] escapes. *)
Definition escape_char (c : N) : str :=
  if (c =? backslash)%N then [backslash; backslash]
  else if (c =? quote)%N then [backslash; quote]
  else if ((32 <=? c) && (c <=? 126))%N then [c]
  else if (c =? 8)%N then backslash :: lit "b"
  else if (c =? 12)%N then backslash :: lit "f"
  else if (c =? 10)%N then backslash :: lit "n"
  else if (c =? 13)%N then backslash :: lit "r"
  else if (c =? 9)%N then backslash :: lit "t"
  else
    let n := Z.of_N c in
    if n <? 0x10000 then backslash :: lit "u" ++ hex4 n
    else
      let n := n - 0x10000 in
      let s1 := Z.lor 0xd800 (Z.land (Z.shiftr n 10) 0x3ff) in
      let s2 := Z.lor 0xdc00 (Z.land n 0x3ff) in
      (backslash :: lit "u" ++ hex4 s1) ++ (backslash :: lit "u" ++ hex4 s2).

Definition encode_basestring_ascii (s : str) : str :=
  quote :: flat_map escape_char s ++ [quote].

(** [separator.join(parts)]. *)
Fixpoint join (separator : str) (parts : list str) : str :=
  match parts with
  | [] => []
  | [p] => p
  | p :: rest => p ++ separator ++ join separator rest
  end.

Fixpoint dumps_value (v : value) : str :=
  match v with
  | VNone => lit "null"
  | VInt n => str_int n
  | VStr s => encode_basestring_ascii s
  | VList [] => lit "[]"
  | VList items => lit "[" ++ join (lit ", ") (map dumps_value items) ++ lit "]"
  end.

(** Python's [sorted] and SQLite's [ORDER BY] as a stable insertion sort. *)
Fixpoint insert_sorted {A} (leb : A -> A -> bool) (x : A) (l : list A) : list A :=
  match l with
  | [] => [x]
  | y :: l' => if leb x y then x :: y :: l' else y :: insert_sorted leb x l'
  end.

Definition insertion_sort {A} (leb : A -> A -> bool) (l : list A) : list A :=
  fold_right (insert_sorted leb) [] l.

(** [sorted(dct.items())]: the keys of a dict are distinct, so the order of
    two items is the order of their keys. *)
Definition item_leb (x y : str * value) : bool := str_leb (fst x) (fst y).

Definition sorted (items : list (str * value)) : list (str * value) :=
  insertion_sort item_leb items.

Definition dumps_item (kv : str * value) : str :=
  encode_basestring_ascii (fst kv) ++ lit ": " ++ dumps_value (snd kv).

(** [json.dumps(metadata, sort_keys=...)] with the default separators and
    [ensure_ascii=True]. *)
Definition dumps (sort_keys : bool) (metadata : dict) : str :=
  let items := if sort_keys then sorted metadata else metadata in
  match items with
  | [] => lit "{}"
  | _ => lit "{" ++ join (lit ", ") (map dumps_item items) ++ lit "}"
  end.

(* ===================================================================== *)
(** ** str.encode() *)
(* ===================================================================== *)

Definition bytes := list Z.

Definition utf8_char (c : N) : result bytes :=
  let n := Z.of_N c in
  if n <? 0x80 then Ok [n]
  else if n <? 0x800 then
    Ok [Z.lor 0xc0 (Z.shiftr n 6); Z.lor 0x80 (Z.land n 0x3f)]
  else if (0xd800 <=? n) && (n <=? 0xdfff) then
    Raise (mkExn (lit "UnicodeEncodeError") (lit "surrogates not allowed"))
  else if n <? 0x10000 then
    Ok [Z.lor 0xe0 (Z.shiftr n 12);
        Z.lor 0x80 (Z.land (Z.shiftr n 6) 0x3f);
        Z.lor 0x80 (Z.land n 0x3f)]
  else
    Ok [Z.lor 0xf0 (Z.shiftr n 18);
        Z.lor 0x80 (Z.land (Z.shiftr n 12) 0x3f);
        Z.lor 0x80 (Z.land (Z.shiftr n 6) 0x3f);
        Z.lor 0x80 (Z.land n 0x3f)].

Fixpoint encode (s : str) : result bytes :=
  match s with
  | [] => Ok []
  | c :: rest =>
      b <- utf8_char c ;;
      bs <- encode rest ;;
      Ok (b ++ bs)
  end.

(* ===================================================================== *)
(** ** hashlib.sha256 (FIPS 180-4) *)
(* ===================================================================== *)

Module SHA256.

Definition w32 (x : Z) : Z := Z.land x 0xffffffff.

Definition add32 (x y : Z) : Z := w32 (x + y).

Definition rotr (n x : Z) : Z :=
  Z.lor (Z.shiftr x n) (w32 (Z.shiftl x (32 - n))).

Definition Ch (x y z : Z) : Z := Z.lxor (Z.land x y) (Z.land (Z.lnot x) z).
Definition Maj (x y z : Z) : Z :=
  Z.lxor (Z.land x y) (Z.lxor (Z.land x z) (Z.land y z)).
Definition Sigma0 (x : Z) : Z := Z.lxor (rotr 2 x) (Z.lxor (rotr 13 x) (rotr 22 x)).
Definition Sigma1 (x : Z) : Z := Z.lxor (rotr 6 x) (Z.lxor (rotr 11 x) (rotr 25 x)).
Definition sigma0 (x : Z) : Z := Z.lxor (rotr 7 x) (Z.lxor (rotr 18 x) (Z.shiftr x 3)).
Definition sigma1 (x : Z) : Z := Z.lxor (rotr 17 x) (Z.lxor (rotr 19 x) (Z.shiftr x 10)).

(** The constants are taken from the first primes, as the standard defines
    them: the first 32 bits of the fractional part of the cube root (for [K])
    and of the square root (for [H0]) of each prime. *)
Definition is_prime (n : Z) : bool :=
  (1 <? n) &&
  forallb (fun d => negb (n mod d =? 0)) (map Z.of_nat (seq 2 (Z.to_nat n - 2))).

Definition primes (count : nat) : list Z :=
  firstn count (filter is_prime (map Z.of_nat (seq 2 310))).

(** The integer cube root, found bit by bit from the top. *)
Definition cube_root (n : Z) : Z :=
  fold_left
    (fun root bit =>
       let candidate := root + 2 ^ Z.of_nat bit in
       if candidate * candidate * candidate <=? n then candidate else root)
    (rev (seq 0 40)) 0.

Definition K : list Z :=
  Eval vm_compute in map (fun p => w32 (cube_root (p * 2 ^ 96))) (primes 64).

Definition initial_words : list Z :=
  Eval vm_compute in map (fun p => w32 (Z.sqrt (p * 2 ^ 64))) (primes 8).

(** The eight working variables, and the chaining value between blocks. *)
Record state := mkState {
  ha : Z; hb : Z; hc : Z; hd : Z; he : Z; hf : Z; hg : Z; hh : Z
}.

Definition H0 : state :=
  let word (i : nat) := nth i initial_words 0 in
  mkState (word 0%nat) (word 1%nat) (word 2%nat) (word 3%nat)
          (word 4%nat) (word 5%nat) (word 6%nat) (word 7%nat).

(** Padding: a 1 bit, zeros up to 56 mod 64, the bit length on 8 bytes. *)
Definition be_bytes (count : nat) (x : Z) : bytes :=
  map (fun i => Z.land (Z.shiftr x (8 * Z.of_nat i)) 0xff) (rev (seq 0 count)).

Definition pad (msg : bytes) : bytes :=
  let len := Z.of_nat (List.length msg) in
  let zeros := Z.to_nat ((55 - len) mod 64) in
  msg ++ [0x80] ++ repeat 0 zeros ++ be_bytes 8 (8 * len).

(** Big-endian 32-bit words of a byte string. *)
Fixpoint words (count : nat) (bs : bytes) : list Z :=
  match count with
  | O => []
  | S count' =>
      match bs with
      | b0 :: b1 :: b2 :: b3 :: rest =>
          Z.lor (Z.shiftl b0 24) (Z.lor (Z.shiftl b1 16) (Z.lor (Z.shiftl b2 8) b3))
          :: words count' rest
      | _ => []
      end
  end.

(** The message schedule: [more] words appended to the first sixteen. *)
Fixpoint schedule (w : list Z) (more : nat) : list Z :=
  match more with
  | O => w
  | S more' =>
      let t := List.length w in
      let at_ (back : nat) := nth (t - back) w 0 in
      schedule
        (w ++ [add32 (add32 (sigma1 (at_ 2%nat)) (at_ 7%nat))
                      (add32 (sigma0 (at_ 15%nat)) (at_ 16%nat))])
        more'
  end.

Definition round (s : state) (kw : Z * Z) : state :=
  let (k, w) := kw in
  let T1 := add32 (add32 (add32 (hh s) (Sigma1 (he s))) (add32 (Ch (he s) (hf s) (hg s)) k)) w in
  let T2 := add32 (Sigma0 (ha s)) (Maj (ha s) (hb s) (hc s)) in
  mkState (add32 T1 T2) (ha s) (hb s) (hc s) (add32 (hd s) T1) (he s) (hf s) (hg s).

Definition compress (h : state) (block : bytes) : state :=
  let w := schedule (words 16 block) 48 in
  let s := fold_left round (combine K w) h in
  mkState (add32 (ha h) (ha s)) (add32 (hb h) (hb s))
          (add32 (hc h) (hc s)) (add32 (hd h) (hd s))
          (add32 (he h) (he s)) (add32 (hf h) (hf s))
          (add32 (hg h) (hg s)) (add32 (hh h) (hh s)).

Fixpoint process (blocks : nat) (h : state) (bs : bytes) : state :=
  match blocks with
  | O => h
  | S blocks' => process blocks' (compress h (firstn 64 bs)) (skipn 64 bs)
  end.

Definition digest (msg : bytes) : bytes :=
  let padded := pad msg in
  let h := process (List.length padded / 64) H0 padded in
  flat_map (be_bytes 4) [ha h; hb h; hc h; hd h; he h; hf h; hg h; hh h].

(** [hexdigest()]: two lowercase hexadecimal digits per byte. *)
Definition hex_byte (b : Z) : str :=
  [hex_digit (Z.land (Z.shiftr b 4) 15); hex_digit (Z.land b 15)].

Definition hexdigest (msg : bytes) : str := flat_map hex_byte (digest msg).

End SHA256.

(* ===================================================================== *)
(** ** MetadataHasher *)
(* ===================================================================== *)

Definition hash_metadata (metadata : dict) : result str :=
  let metadata_str := dumps true metadata in
  encoded <- encode metadata_str ;;
  Ok (SHA256.hexdigest encoded).

(* ===================================================================== *)
(** ** DatabaseManager *)
(* ===================================================================== *)

(** A row of [document_metadata]. *)
Record row := mkRow {
  id : Z;
  file_path : str;
  file_name : str;
  metadata_hash : str;
  timestamp : str;
  metadata_json : str
}.

(** The database file: the table in rowid order and the [sqlite_sequence]
    entry that [AUTOINCREMENT] keeps for it. *)
Record database := mkDatabase {
  document_metadata : list row;
  sqlite_sequence : Z
}.

(** [create_tables] on a new file. *)
Definition create_tables : database := mkDatabase [] 0.

Definition max_rowid : Z := 9223372036854775807.

(** The rowid [AUTOINCREMENT] assigns: one more than the largest rowid the
    table has ever held; SQLite refuses the insert once that is exhausted. *)
Definition next_rowid (db : database) : result Z :=
  let largest := fold_left Z.max (map id (document_metadata db)) (sqlite_sequence db) in
  if max_rowid <=? largest
  then Raise (mkExn (lit "OperationalError") (lit "database or disk is full"))
  else Ok (largest + 1).

(** What the storage layer does at one call: [sqlite3.connect] may fail to
    open the file, and the write ([execute], [commit]) may fail on a locked
    database or on a disk error. *)
Record storage := mkStorage {
  connect_error : option exn;
  write_error : option exn
}.

(** A call at which the storage layer does not fail. *)
Definition storage_ok : storage := mkStorage None None.

Definition raise_if (failure : option exn) : result unit :=
  match failure with
  | Some e => Raise e
  | None => Ok tt
  end.

(** [execute] binds each [str] parameter as UTF-8 text, in their order: a
    parameter with a lone surrogate raises [UnicodeEncodeError]. *)
Fixpoint bind_parameters (parameters : list str) : result unit :=
  match parameters with
  | [] => Ok tt
  | parameter :: rest =>
      encoded <- encode parameter ;;
      bind_parameters rest
  end.

(** [save_metadata]; [io] is what the storage layer does at the call and
    [now] is [datetime.datetime.now().isoformat()] as the clock gives it.
    Returns the database after the commit and [cursor.lastrowid]; when it
    raises, nothing is committed and the database is as before. *)
Definition save_metadata (io : storage) (db : database) (now : str)
    (file_path : str) (metadata : dict) (metadata_hash : str)
  : result (database * Z) :=
  conn <- raise_if (connect_error io) ;;
  let timestamp := now in
  let file_name := basename file_path in
  let metadata_json := dumps false metadata in
  bound <- bind_parameters [file_path; file_name; metadata_hash; timestamp; metadata_json] ;;
  written <- raise_if (write_error io) ;;
  rowid <- next_rowid db ;;
  let new_row := mkRow rowid file_path file_name metadata_hash timestamp metadata_json in
  Ok (mkDatabase (document_metadata db ++ [new_row]) rowid, rowid).

(** [ORDER BY timestamp DESC] on a TEXT column: the binary collation, which
    on UTF-8 text is the order of the code points. *)
Definition timestamp_desc (r1 r2 : row) : bool := str_leb (timestamp r2) (timestamp r1).

Definition get_all_metadata (db : database) : list row :=
  insertion_sort timestamp_desc (document_metadata db).

(** An environment without any file: every open fails.  Only all-ASCII
    strings are lowered in it, so its Unicode table is never consulted. *)
Definition FileNotFoundError : exn :=
  mkExn (lit "FileNotFoundError") (lit "[Errno 2] No such file or directory").

Definition no_files : Env := {|
  unicode_lower := fun s => s;
  open_PdfReader := fun _ => Raise FileNotFoundError;
  open_Document := fun _ => Raise FileNotFoundError;
  load_workbook := fun _ => Raise FileNotFoundError;
  open_Presentation := fun _ => Raise FileNotFoundError;
  Image_open := fun _ => Raise FileNotFoundError;
  TAGS := fun _ => None;
  message_from_file := fun _ => Raise FileNotFoundError;
  open_csv_reader := fun _ => Raise FileNotFoundError
|}.

(* ===================================================================== *)
(** ** MetadataExtractorGUI *)
(* ===================================================================== *)

(** [json.dumps(metadata, indent=4)]: one item per line, four spaces per
    level, [","] between items and [": "] after a key. *)
Definition newline_indent (level : nat) : str :=
  10%N :: repeat 32%N (4 * level).

Fixpoint dumps_value_indent (level : nat) (v : value) : str :=
  match v with
  | VNone => lit "null"
  | VInt n => str_int n
  | VStr s => encode_basestring_ascii s
  | VList [] => lit "[]"
  | VList items =>
      lit "[" ++ newline_indent (S level)
      ++ join (lit "," ++ newline_indent (S level))
              (map (dumps_value_indent (S level)) items)
      ++ newline_indent level ++ lit "]"
  end.

Definition dumps_indent (metadata : dict) : str :=
  match metadata with
  | [] => lit "{}"
  | _ =>
      lit "{" ++ newline_indent 1
      ++ join (lit "," ++ newline_indent 1)
              (map (fun kv => encode_basestring_ascii (fst kv) ++ lit ": "
                              ++ dumps_value_indent 1 (snd kv))
                   metadata)
      ++ newline_indent 0 ++ lit "}"
  end.

(** The attributes and Tk variables of the window that its callbacks read
    or write, and the database behind [self.db_manager]. *)
Record gui := mkGui {
  file_path_var : str;
  current_file_path : option str;
  current_metadata : option dict;
  metadata_text : str;
  hash_var : str;
  status_var : str;
  db_manager : database
}.

(** [__init__] on the database file as it is found. *)
Definition gui_init (db : database) : gui :=
  mkGui (lit "") None None (lit "") (lit "") (lit "Ready") db.

Definition set_status (g : gui) (status : str) : gui :=
  mkGui (file_path_var g) (current_file_path g) (current_metadata g)
        (metadata_text g) (hash_var g) status (db_manager g).

(** [browse_file]; [chosen] is what the file dialog returns, empty when it
    is cancelled. *)
Definition browse_file (g : gui) (chosen : str) : gui :=
  match chosen with
  | [] => g
  | _ =>
      mkGui chosen (Some chosen) (current_metadata g) (metadata_text g) (hash_var g)
            (lit "Selected file: " ++ basename chosen) (db_manager g)
  end.

Definition _update_metadata_display (g : gui) (metadata : dict) (metadata_hash : str) : gui :=
  mkGui (file_path_var g) (current_file_path g) (Some metadata)
        (dumps_indent metadata) metadata_hash
        (lit "Metadata extraction complete") (db_manager g).

(** [_extract_metadata_thread] followed by the callback it schedules on the
    main loop.  The callback that the [except] branch schedules reads [e]
    after the [except] block has unbound it: it fails inside the main loop
    and changes nothing.  Without a path, [os.path.splitext] raises and the
    same branch is taken. *)
Definition _extract_metadata_thread (env : Env) (g : gui) : gui :=
  match current_file_path g with
  | None => g
  | Some path =>
      match (metadata <- extract_metadata env path ;;
             metadata_hash <- hash_metadata metadata ;;
             Ok (metadata, metadata_hash)) with
      | Ok (metadata, metadata_hash) =>
          _update_metadata_display g metadata metadata_hash
      | Raise e => g
      end
  end.

(** The button [Extract Metadata], with the worker thread run to its end. *)
Definition gui_extract_metadata (env : Env) (g : gui) : gui :=
  match current_file_path g with
  | None | Some [] => set_status g (lit "Error: No file selected")
  | Some _ => _extract_metadata_thread env (set_status g (lit "Extracting metadata..."))
  end.

(** The button [Save to Database]; [io] and [now] are what the storage
    layer does and the clock reading inside [save_metadata]. *)
Definition save_to_database (g : gui) (io : storage) (now : str) : gui :=
  match current_metadata g with
  | None | Some [] => set_status g (lit "Error: No metadata to save")
  | Some metadata =>
      let metadata_hash := hash_var g in
      match current_file_path g with
      | None =>
          match connect_error io with
          | Some e => set_status g (lit "Error saving to database: " ++ exn_str e)
          | None =>
              set_status g
                (lit "Error saving to database: expected str, bytes or os.PathLike object, not NoneType")
          end
      | Some path =>
          match save_metadata io (db_manager g) now path metadata metadata_hash with
          | Ok (db', record_id) =>
              mkGui (file_path_var g) (current_file_path g) (current_metadata g)
                    (metadata_text g) (hash_var g)
                    (lit "Metadata saved to database with ID: " ++ str_int record_id) db'
          | Raise e => set_status g (lit "Error saving to database: " ++ exn_str e)
          end
      end
  end.

(** What the user does, and a session of it. *)
Inductive event :=
| Browse (chosen : str)
| Extract
| Save (io : storage) (now : str).

Definition gui_step (env : Env) (g : gui) (ev : event) : gui :=
  match ev with
  | Browse chosen => browse_file g chosen
  | Extract => gui_extract_metadata env g
  | Save io now => save_to_database g io now
  end.

Definition gui_run (env : Env) (g : gui) (events : list event) : gui :=
  fold_left (gui_step env) events g.

(* ===================================================================== *)
(** ** Predicates that the properties are stated with *)
(* ===================================================================== *)

(** Every character is below 128. *)
Definition all_ascii (s : str) : bool := forallb is_ascii s.

(** One of [0-9a-f]. *)
Definition is_lower_hex (c : N) : bool :=
  ((48 <=? c) && (c <=? 57))%N || ((97 <=? c) && (c <=? 102))%N.

(** One of [A-Z]. *)
Definition is_upper (c : N) : bool := ((65 <=? c) && (c <=? 90))%N.

(** The strict order of two items by their keys. *)
Definition item_lt (x y : str * value) : Prop := str_ltb (fst x) (fst y) = true.

(** The rows come back in descending order of their timestamp text. *)
Definition newest_first (rows : list row) : Prop :=
  StronglySorted (fun r1 r2 => str_leb (timestamp r2) (timestamp r1) = true) rows.

(** An exception in the [try] block of the handler registered for one of
    [extensions] comes back from [extract_metadata] as the error result
    with that handler's message. *)
Definition caught_as (env : Env) (file_path : str) (extensions : list str)
    (try_block : result dict) (message : str) : Prop :=
  forall e,
    In (lower env (snd (splitext file_path))) extensions ->
    try_block = Raise e ->
    extract_metadata env file_path = Ok (error_result (message ++ exn_str e)).

(** The reading under which the error message carries the extension exactly
    as it is written in the path. *)
Definition reports_literal_extension (env : Env) (file_path : str) : Prop :=
  let extension := snd (splitext file_path) in
  handler_of (supported_extensions env) extension = None ->
  exists message,
    extract_metadata env file_path = Ok (error_result message) /\
    contains message extension = true.

(** The reading under which the record just saved always heads the list. *)
Definition saved_record_listed_first (db : database) (now path : str)
    (metadata : dict) (hash : str) : Prop :=
  forall io db' rowid,
    save_metadata io db now path metadata hash = Ok (db', rowid) ->
    newest_first (get_all_metadata db') /\
    exists first rest,
      get_all_metadata db' = first :: rest /\
      id first = rowid /\ metadata_hash first = hash.

(** The reading under which two saves of the same metadata always get
    different timestamps. *)
Definition two_saves_differ (db : database) (now1 now2 path : str)
    (metadata : dict) (hash : str) : Prop :=
  forall io1 io2 db1 id1 db2 id2,
    save_metadata io1 db now1 path metadata hash = Ok (db1, id1) ->
    save_metadata io2 db1 now2 path metadata hash = Ok (db2, id2) ->
    exists r1 r2,
      document_metadata db2 = document_metadata db ++ [r1; r2] /\
      metadata_hash r1 = metadata_hash r2 /\
      id r1 <> id r2 /\
      timestamp r1 <> timestamp r2.

(* ===================================================================== *)
(** ** Sample inputs *)
(* ===================================================================== *)

(** One mapping written in two insertion orders, and its hash. *)
Definition sample_metadata : dict :=
  [(lit "title", VStr (lit "Q3 report")); (lit "page_count", VInt 2)].

Definition sample_metadata_reordered : dict :=
  [(lit "page_count", VInt 2); (lit "title", VStr (lit "Q3 report"))].

Definition sample_hash : str :=
  lit "06485556f64f86130e0c059a47715ba7454853820f10080f5bb50a33c2519699".

(** [str(e)] of the [IndexError] that indexing an empty sequence raises. *)
Definition IndexError_message : str := lit "sequence index out of range".

(** A file system in which every [.pdf] is a readable PDF with no pages and
    no document information. *)
Definition zero_page_pdf : PdfReader :=
  {| pdf_metadata := Ok None; pdf_pages := Ok [] |}.

Definition zero_page_pdf_env : Env := {|
  unicode_lower := fun s => s;
  open_PdfReader := fun _ => Ok zero_page_pdf;
  open_Document := fun _ => Raise FileNotFoundError;
  load_workbook := fun _ => Raise FileNotFoundError;
  open_Presentation := fun _ => Raise FileNotFoundError;
  Image_open := fun _ => Raise FileNotFoundError;
  TAGS := fun _ => None;
  message_from_file := fun _ => Raise FileNotFoundError;
  open_csv_reader := fun _ => Raise FileNotFoundError
|}.

(** A file system in which every [.csv] holds a header and two rows. *)
Definition sample_csv_env : Env := {|
  unicode_lower := fun s => s;
  open_PdfReader := fun _ => Raise FileNotFoundError;
  open_Document := fun _ => Raise FileNotFoundError;
  load_workbook := fun _ => Raise FileNotFoundError;
  open_Presentation := fun _ => Raise FileNotFoundError;
  Image_open := fun _ => Raise FileNotFoundError;
  TAGS := fun _ => None;
  message_from_file := fun _ => Raise FileNotFoundError;
  open_csv_reader := fun _ =>
    Ok {| csv_rows := [ [lit "a"; lit "b"; lit "c"];
                        [lit "1"; lit "2"; lit "3"];
                        [lit "4"; lit "5"; lit "6"] ];
          csv_failure := None |}
|}.

(** A database that holds one record saved at 01:59:30. *)
Definition db_before_clock_change : database :=
  mkDatabase [mkRow 1 (lit "a.csv") (lit "a.csv") sample_hash
                    (lit "2024-10-27T01:59:30.250000") (dumps false sample_metadata)] 1.

(* ===================================================================== *)
(** * Properties *)
(* ===================================================================== *)

(** ** Strings: equality and order *)

Lemma str_eqb_eq (a b : str) : str_eqb a b = true <-> a = b.
Proof.
  unfold str_eqb. destruct (list_eq_dec N.eq_dec a b); split; congruence.
Qed.

Lemma str_eqb_refl (a : str) : str_eqb a a = true.
Proof. now apply str_eqb_eq. Qed.

Lemma str_eqb_neq (a b : str) : str_eqb a b = false <-> a <> b.
Proof.
  unfold str_eqb. destruct (list_eq_dec N.eq_dec a b); split; congruence.
Qed.

Lemma str_ltb_irrefl (a : str) : str_ltb a a = false.
Proof.
  induction a as [|x a IH]; simpl; [reflexivity|].
  now rewrite N.ltb_irrefl.
Qed.

Lemma str_ltb_trans (a b c : str) :
  str_ltb a b = true -> str_ltb b c = true -> str_ltb a c = true.
Proof.
  revert b c. induction a as [|x a IH]; intros [|y b] [|z c]; simpl; try congruence.
  destruct (x <? y)%N eqn:Hxy, (y <? x)%N eqn:Hyx,
           (y <? z)%N eqn:Hyz, (z <? y)%N eqn:Hzy,
           (x <? z)%N eqn:Hxz, (z <? x)%N eqn:Hzx;
    try congruence;
    rewrite ?N.ltb_lt, ?N.ltb_ge in *; try lia.
  intros; eapply IH; eassumption.
Qed.

(** Trichotomy: two strings that are not ordered either way are equal. *)
Lemma str_ltb_connected (a b : str) :
  str_ltb a b = false -> str_ltb b a = false -> a = b.
Proof.
  revert b. induction a as [|x a IH]; intros [|y b]; simpl; try congruence.
  destruct (x <? y)%N eqn:Hxy, (y <? x)%N eqn:Hyx; try congruence.
  rewrite N.ltb_ge in *. intros H1 H2.
  f_equal; [lia | now apply IH].
Qed.

Lemma str_ltb_asym (a b : str) : str_ltb a b = true -> str_ltb b a = false.
Proof.
  intros H. destruct (str_ltb b a) eqn:E; [|reflexivity].
  pose proof (str_ltb_trans _ _ _ H E) as C.
  now rewrite str_ltb_irrefl in C.
Qed.

Lemma str_leb_total (a b : str) : str_leb a b = false -> str_leb b a = true.
Proof.
  unfold str_leb. rewrite negb_false_iff, negb_true_iff. apply str_ltb_asym.
Qed.

Lemma str_leb_trans (a b c : str) :
  str_leb a b = true -> str_leb b c = true -> str_leb a c = true.
Proof.
  unfold str_leb. rewrite !negb_true_iff. intros Hba Hcb.
  destruct (str_ltb c a) eqn:Hca; [|reflexivity].
  destruct (str_ltb a b) eqn:Hab.
  - pose proof (str_ltb_trans _ _ _ Hca Hab). congruence.
  - assert (a = b) by now apply str_ltb_connected. subst. congruence.
Qed.

(** ** The insertion sort behind [sorted] and [ORDER BY] *)

Section InsertionSort.

Context {A : Type}.
Variable leb : A -> A -> bool.

Lemma insert_sorted_perm (x : A) (l : list A) :
  Permutation (x :: l) (insert_sorted leb x l).
Proof.
  induction l as [|y l IH]; simpl; [reflexivity|].
  destruct (leb x y); [reflexivity|].
  rewrite perm_swap. now constructor.
Qed.

Lemma insertion_sort_perm (l : list A) : Permutation l (insertion_sort leb l).
Proof.
  induction l as [|x l IH]; simpl; [constructor|].
  rewrite <- insert_sorted_perm. now constructor.
Qed.

Lemma insertion_sort_In (l : list A) (x : A) :
  In x (insertion_sort leb l) <-> In x l.
Proof.
  split; apply Permutation_in;
    [symmetry|]; apply insertion_sort_perm.
Qed.

Hypothesis leb_total : forall x y, leb x y = false -> leb y x = true.
Hypothesis leb_trans : forall x y z, leb x y = true -> leb y z = true -> leb x z = true.

Let le (x y : A) : Prop := leb x y = true.

Lemma insert_sorted_sorted (x : A) (l : list A) :
  StronglySorted le l -> StronglySorted le (insert_sorted leb x l).
Proof.
  induction 1 as [|y l Hl IH Hy]; simpl.
  - repeat constructor.
  - destruct (leb x y) eqn:E.
    + constructor; [now constructor|].
      constructor; [exact E|].
      eapply Forall_impl; [|exact Hy].
      intros z Hz. eapply leb_trans; eassumption.
    + constructor; [exact IH|].
      rewrite Forall_forall. intros z Hz.
      apply (Permutation_in _ (Permutation_sym (insert_sorted_perm x l))) in Hz.
      destruct Hz as [<-|Hz].
      * now apply leb_total.
      * rewrite Forall_forall in Hy. now apply Hy.
Qed.

Lemma insertion_sort_sorted (l : list A) : StronglySorted le (insertion_sort leb l).
Proof.
  induction l as [|x l IH]; simpl; [constructor|].
  now apply insert_sorted_sorted.
Qed.

(** A row that sorts strictly before all the others comes out first, also
    when it was appended last. *)
Lemma insertion_sort_last_first (l : list A) (x : A) :
  (forall y, In y l -> leb y x = false) ->
  insertion_sort leb (l ++ [x]) = x :: insertion_sort leb l.
Proof.
  induction l as [|y l IH]; intros Hx; simpl; [reflexivity|].
  rewrite IH by (intros; apply Hx; now right).
  simpl. now rewrite (Hx y (or_introl eq_refl)).
Qed.

End InsertionSort.

(** Two lists sorted by a strict order with the same elements are equal. *)
Section StrictlySorted.

Context {A : Type}.
Variable lt : A -> A -> Prop.
Hypothesis lt_irrefl : forall x, ~ lt x x.
Hypothesis lt_trans : forall x y z, lt x y -> lt y z -> lt x z.

Lemma strictly_sorted_unique (l1 l2 : list A) :
  StronglySorted lt l1 -> StronglySorted lt l2 ->
  (forall x, In x l1 <-> In x l2) -> l1 = l2.
Proof.
  intros H1. revert l2.
  induction H1 as [|x1 l1 Hs1 IH Hx1]; intros l2 H2 Hin.
  - destruct l2 as [|x2 l2]; [reflexivity|].
    exfalso. apply (Hin x2). now left.
  - destruct H2 as [|x2 l2 Hs2 Hx2].
    + exfalso. apply (Hin x1). now left.
    + rewrite Forall_forall in Hx1, Hx2.
      assert (x1 = x2) as <-.
      { destruct (proj1 (Hin x1) (or_introl eq_refl)) as [E|I1]; [now symmetry|].
        destruct (proj2 (Hin x2) (or_introl eq_refl)) as [E|I2]; [exact E|].
        exfalso. apply (lt_irrefl (x := x1)).
        eapply lt_trans; [apply Hx1, I2 | apply Hx2, I1]. }
      f_equal. apply IH; [exact Hs2|].
      intros y; split; intros Hy.
      * destruct (proj1 (Hin y) (or_intror Hy)) as [E|I]; [|exact I].
        subst y. exfalso. apply (lt_irrefl (x := x1)). now apply Hx1.
      * destruct (proj2 (Hin y) (or_intror Hy)) as [E|I]; [|exact I].
        subst y. exfalso. apply (lt_irrefl (x := x1)). now apply Hx2.
Qed.

End StrictlySorted.

(** ** Dicts *)

Lemma dict_get_In (d : dict) (k : str) (v : value) :
  wf_dict d -> (dict_get d k = Some v <-> In (k, v) d).
Proof.
  unfold wf_dict. induction d as [|[k' v'] d IH]; simpl; intros Hnd.
  - split; [discriminate | tauto].
  - inversion Hnd as [|? ? Hnotin Hnd']; subst.
    destruct (str_eqb k' k) eqn:E.
    + apply str_eqb_eq in E. subst k'. split.
      * intros [= ->]. now left.
      * intros [[= ->]|Hin]; [reflexivity|].
        exfalso. apply Hnotin. now apply (in_map fst) in Hin.
    + apply str_eqb_neq in E. rewrite (IH Hnd'). split.
      * now right.
      * intros [[= ? ?]|Hin]; [congruence | exact Hin].
Qed.

Lemma item_leb_total (x y : str * value) : item_leb x y = false -> item_leb y x = true.
Proof. apply str_leb_total. Qed.

Lemma item_leb_trans (x y z : str * value) :
  item_leb x y = true -> item_leb y z = true -> item_leb x z = true.
Proof. apply str_leb_trans. Qed.

Lemma sorted_perm (d : dict) : Permutation d (sorted d).
Proof. apply insertion_sort_perm. Qed.

(** With distinct keys, sorted by [<=] is sorted by [<]. *)
Lemma sorted_strictly (d : dict) : wf_dict d -> StronglySorted item_lt (sorted d).
Proof.
  intros Hwf.
  assert (Hnd : NoDup (map fst (sorted d))).
  { eapply Permutation_NoDup; [|exact Hwf]. apply Permutation_map, sorted_perm. }
  pose proof (insertion_sort_sorted item_leb item_leb_total item_leb_trans d) as Hs.
  fold (sorted d) in Hs.
  induction Hs as [|x l Hl IH Hx]; [constructor|].
  simpl in Hnd. inversion Hnd as [|? ? Hnotin Hnd']; subst.
  constructor; [now apply IH|].
  rewrite Forall_forall in *. intros y Hy.
  specialize (Hx y Hy). unfold item_leb, str_leb in Hx. unfold item_lt.
  rewrite negb_true_iff in Hx.
  destruct (str_ltb (fst x) (fst y)) eqn:E; [reflexivity|].
  exfalso. apply Hnotin.
  rewrite (str_ltb_connected _ _ E Hx). now apply in_map.
Qed.

(** The canonical item order depends on the contents of the dict only. *)
Lemma sorted_canonical (m1 m2 : dict) :
  wf_dict m1 -> wf_dict m2 ->
  (forall k, dict_get m1 k = dict_get m2 k) ->
  sorted m1 = sorted m2.
Proof.
  intros H1 H2 Hget.
  apply (strictly_sorted_unique (lt := item_lt)).
  - intros x. unfold item_lt. now rewrite str_ltb_irrefl.
  - intros x y z. apply str_ltb_trans.
  - now apply sorted_strictly.
  - now apply sorted_strictly.
  - intros [k v]. unfold sorted. rewrite !insertion_sort_In.
    rewrite <- !dict_get_In by assumption. now rewrite Hget.
Qed.

(** C1.  Two metadata mappings with the same keys and the same value under
    each key have the same hash, whatever the order in which their keys were
    inserted. *)
Theorem hash_metadata_insertion_order (m1 m2 : dict) :
  wf_dict m1 -> wf_dict m2 ->
  (forall k, dict_get m1 k = dict_get m2 k) ->
  hash_metadata m1 = hash_metadata m2.
Proof.
  intros H1 H2 Hget. unfold hash_metadata, dumps.
  now rewrite (sorted_canonical H1 H2 Hget).
Qed.

Lemma hash_metadata_insertion_order_witness :
  sample_metadata <> sample_metadata_reordered /\
  hash_metadata sample_metadata = hash_metadata sample_metadata_reordered.
Proof.
  split; [discriminate|].
  apply hash_metadata_insertion_order.
  - unfold wf_dict; simpl; repeat constructor; simpl; intuition discriminate.
  - unfold wf_dict; simpl; repeat constructor; simpl; intuition discriminate.
  - intros k. simpl.
    destruct (str_eqb (lit "title") k) eqn:E1;
      destruct (str_eqb (lit "page_count") k) eqn:E2; try reflexivity.
    apply str_eqb_eq in E1, E2. subst k. discriminate.
Defined.

(** ** The serialised form is ASCII, so encoding it cannot fail *)

Lemma all_ascii_app (a b : str) : all_ascii (a ++ b) = all_ascii a && all_ascii b.
Proof. apply forallb_app. Qed.

Lemma all_ascii_cons (c : N) (s : str) : all_ascii (c :: s) = is_ascii c && all_ascii s.
Proof. reflexivity. Qed.

Lemma hex_digit_cases (n : Z) :
  In (hex_digit n) hexdigits.
Proof.
  unfold hex_digit.
  destruct (nth_in_or_default (Z.to_nat n) hexdigits 48%N) as [H|H]; [exact H|].
  rewrite H. vm_compute. tauto.
Qed.

Lemma hex_digit_ascii (n : Z) : is_ascii (hex_digit n) = true.
Proof.
  pose proof (hex_digit_cases n) as H.
  remember (hex_digit n) as d eqn:Hd. clear Hd. vm_compute in H.
  decompose [or] H; try contradiction; subst d; reflexivity.
Qed.

Lemma hex4_ascii (n : Z) : all_ascii (hex4 n) = true.
Proof.
  unfold hex4, all_ascii. simpl forallb. now rewrite !hex_digit_ascii.
Qed.

Lemma escape_char_ascii (c : N) : all_ascii (escape_char c) = true.
Proof.
  unfold escape_char.
  repeat match goal with
         | |- context [if ?b then _ else _] => destruct b eqn:?
         end;
    repeat (rewrite all_ascii_app || rewrite all_ascii_cons || rewrite hex4_ascii);
    try reflexivity.
  apply andb_prop in Heqb1 as [_ Hle]. apply N.leb_le in Hle.
  unfold is_ascii. simpl. rewrite andb_true_r. apply N.ltb_lt. lia.
Qed.

Lemma flat_map_ascii {A} (f : A -> str) (l : list A) :
  (forall x, In x l -> all_ascii (f x) = true) -> all_ascii (flat_map f l) = true.
Proof.
  induction l as [|x l IH]; intros H; simpl; [reflexivity|].
  rewrite all_ascii_app, H, IH; auto with datatypes.
Qed.

Lemma encode_basestring_ascii_ascii (s : str) :
  all_ascii (encode_basestring_ascii s) = true.
Proof.
  unfold encode_basestring_ascii.
  rewrite all_ascii_cons, all_ascii_app, flat_map_ascii; [reflexivity|].
  intros; apply escape_char_ascii.
Qed.

Lemma string_of_uint_ascii (d : Decimal.uint) :
  all_ascii (lit (NilEmpty.string_of_uint d)) = true.
Proof. induction d; simpl; auto. Qed.

Lemma str_int_ascii (n : Z) : all_ascii (str_int n) = true.
Proof.
  unfold str_int, NilZero.string_of_int, NilZero.string_of_uint.
  destruct (Z.to_int n) as [d|d]; destruct d; try reflexivity;
    try apply (string_of_uint_ascii (_ d));
    match goal with
    | |- all_ascii (lit (String ?c (NilEmpty.string_of_uint ?u))) = true =>
        change (is_ascii (N_of_ascii c) && all_ascii (lit (NilEmpty.string_of_uint u)) = true);
        now rewrite string_of_uint_ascii
    end.
Qed.

Lemma join_ascii (separator : str) (parts : list str) :
  all_ascii separator = true ->
  (forall p, In p parts -> all_ascii p = true) ->
  all_ascii (join separator parts) = true.
Proof.
  intros Hsep. induction parts as [|p parts IH]; intros H; [reflexivity|].
  destruct parts as [|q parts].
  - apply H. now left.
  - change (join separator (p :: q :: parts))
      with (p ++ separator ++ join separator (q :: parts)).
    rewrite !all_ascii_app, Hsep, (H p (or_introl eq_refl)), IH; [reflexivity|].
    intros; apply H; now right.
Qed.

(** Induction on a [value] that reaches the items of a list. *)
Fixpoint value_ind' (P : value -> Prop)
    (HNone : P VNone) (HInt : forall n, P (VInt n)) (HStr : forall s, P (VStr s))
    (HList : forall items, Forall P items -> P (VList items))
    (v : value) : P v :=
  match v with
  | VNone => HNone
  | VInt n => HInt n
  | VStr s => HStr s
  | VList items =>
      HList items
        ((fix all (l : list value) : Forall P l :=
            match l with
            | [] => Forall_nil P
            | x :: l' => Forall_cons x (value_ind' HNone HInt HStr HList x) (all l')
            end) items)
  end.

Lemma dumps_value_ascii (v : value) : all_ascii (dumps_value v) = true.
Proof.
  induction v as [| n | s | items IH] using value_ind'.
  - reflexivity.
  - apply str_int_ascii.
  - apply encode_basestring_ascii_ascii.
  - destruct items as [|x items]; [reflexivity|].
    change (dumps_value (VList (x :: items)))
      with (lit "[" ++ join (lit ", ") (map dumps_value (x :: items)) ++ lit "]").
    rewrite !all_ascii_app, join_ascii; [reflexivity..|].
    intros p Hp. apply in_map_iff in Hp as [y [<- Hy]].
    rewrite Forall_forall in IH. now apply IH.
Qed.

Lemma dumps_ascii (sort_keys : bool) (metadata : dict) :
  all_ascii (dumps sort_keys metadata) = true.
Proof.
  unfold dumps.
  destruct (if sort_keys then sorted metadata else metadata) as [|x items];
    [reflexivity|].
  rewrite !all_ascii_app, join_ascii; [reflexivity..|].
  intros p Hp. apply in_map_iff in Hp as [y [<- Hy]].
  unfold dumps_item.
  now rewrite !all_ascii_app, encode_basestring_ascii_ascii, dumps_value_ascii.
Qed.

Lemma encode_ascii (s : str) :
  all_ascii s = true -> encode s = Ok (map Z.of_N s).
Proof.
  induction s as [|c s IH]; [reflexivity|].
  rewrite all_ascii_cons. intros H. apply andb_prop in H as [Hc Hs].
  simpl. unfold utf8_char. unfold is_ascii in Hc. apply N.ltb_lt in Hc.
  destruct (Z.of_N c <? 128) eqn:E; [|apply Z.ltb_ge in E; lia].
  simpl. now rewrite (IH Hs).
Qed.

(** ** The digest *)

Lemma hex_digit_lower_hex (n : Z) : is_lower_hex (hex_digit n) = true.
Proof.
  pose proof (hex_digit_cases n) as H.
  remember (hex_digit n) as d eqn:Hd. clear Hd. vm_compute in H.
  decompose [or] H; try contradiction; subst d; reflexivity.
Qed.

Lemma be_bytes_length (count : nat) (x : Z) : List.length (SHA256.be_bytes count x) = count.
Proof.
  unfold SHA256.be_bytes. now rewrite length_map, length_rev, length_seq.
Qed.

Lemma digest_length (msg : bytes) : List.length (SHA256.digest msg) = 32%nat.
Proof.
  unfold SHA256.digest.
  generalize (SHA256.process (List.length (SHA256.pad msg) / 64) SHA256.H0 (SHA256.pad msg)).
  intros h. cbn [flat_map]. now rewrite !length_app, !be_bytes_length.
Qed.

Lemma hexdigest_length (msg : bytes) : List.length (SHA256.hexdigest msg) = 64%nat.
Proof.
  unfold SHA256.hexdigest.
  assert (H : forall l, List.length (flat_map SHA256.hex_byte l) = (2 * List.length l)%nat).
  { induction l as [|b l IH]; simpl; [reflexivity | rewrite IH; lia]. }
  now rewrite H, digest_length.
Qed.

Lemma hexdigest_lower_hex (msg : bytes) : forallb is_lower_hex (SHA256.hexdigest msg) = true.
Proof.
  unfold SHA256.hexdigest.
  induction (SHA256.digest msg) as [|b l IH]; simpl; [reflexivity|].
  now rewrite !hex_digit_lower_hex, IH.
Qed.

Lemma hash_metadata_total (m : dict) :
  hash_metadata m = Ok (SHA256.hexdigest (map Z.of_N (dumps true m))).
Proof.
  unfold hash_metadata. now rewrite (encode_ascii _ (dumps_ascii true m)).
Qed.

(** C8.  The hash of any metadata mapping is computed without an exception
    and is a string of 64 characters, each a lowercase hexadecimal digit. *)
Theorem hash_metadata_hex64 (m : dict) :
  exists h, hash_metadata m = Ok h /\
            List.length h = 64%nat /\
            forallb is_lower_hex h = true.
Proof.
  eexists. split; [apply hash_metadata_total|].
  split; [apply hexdigest_length | apply hexdigest_lower_hex].
Qed.

Example K_ends : hd 0 SHA256.K = 0x428a2f98 /\ last SHA256.K 0 = 0xc67178f2.
Proof. split; reflexivity. Qed.

Example H0_ends : SHA256.ha SHA256.H0 = 0x6a09e667 /\ SHA256.hh SHA256.H0 = 0x5be0cd19.
Proof. split; reflexivity. Qed.

(** The digests that [hashlib] gives for ["abc"] and for the serialised
    empty mapping. *)
Example sha256_abc :
  SHA256.hexdigest (map Z.of_N (lit "abc"))
  = lit "ba7816bf8f01cfea414140de5dae2223b00361a396177a9cb410ff61f20015ad".
Proof. vm_compute. reflexivity. Qed.

Example hash_metadata_empty :
  hash_metadata []
  = Ok (lit "44136fa355b3678a1146ad16f7e8649e94fb4fc21fe77e8310c060f61caaff8a").
Proof. vm_compute. reflexivity. Qed.

Example dumps_sorted_escaped :
  dumps true [ (lit "b", VList [VInt 1; VStr [120; 233; 128512; 127; 10; 34; 92]%N; VNone]);
               (lit "a", VInt (-5)) ]
  = lit "{" ++ [quote] ++ lit "a" ++ [quote] ++ lit ": -5, " ++ [quote] ++ lit "b" ++ [quote]
    ++ lit ": [1, " ++ [quote] ++ lit "x\u00e9\ud83d\ude00\u007f\n\" ++ [quote] ++ lit "\\"
    ++ [quote] ++ lit ", null]}".
Proof. vm_compute. reflexivity. Qed.

(** ** os.path *)

Lemma rfind_from_spec (s : str) (c : N) (i found : Z) :
  (rfind_from s c i found = found /\ ~ In c s) \/
  (exists pre post,
      s = pre ++ c :: post /\ ~ In c post /\
      rfind_from s c i found = i + Z.of_nat (List.length pre)).
Proof.
  revert i found. induction s as [|x s IH]; intros i found; simpl.
  - left. tauto.
  - destruct (IH (i + 1) (if (x =? c)%N then i else found))
      as [[E Hnot]|(pre & post & -> & Hpost & E)].
    + destruct (x =? c)%N eqn:Hx.
      * apply N.eqb_eq in Hx. subst x. right. exists [], s.
        simpl. repeat split; [exact Hnot | lia].
      * apply N.eqb_neq in Hx. left. split; [exact E | tauto].
    + right. exists (x :: pre), post. repeat split; [exact Hpost|].
      rewrite E. simpl List.length. lia.
Qed.

Lemma rfind_spec (s : str) (c : N) :
  (rfind s c = -1 /\ ~ In c s) \/
  (exists pre post,
      s = pre ++ c :: post /\ ~ In c post /\ rfind s c = Z.of_nat (List.length pre)).
Proof. apply (rfind_from_spec s c 0 (-1)). Qed.

Lemma skipn_past {A} (pre : list A) (x : A) (post : list A) :
  skipn (S (List.length pre)) (pre ++ x :: post) = post.
Proof. induction pre as [|y pre IH]; simpl; [reflexivity | exact IH]. Qed.

(** [basename] is what follows the last separator. *)
Lemma basename_spec (p : str) :
  (~ In sep p /\ rfind p sep = -1 /\ basename p = p) \/
  (exists head tail,
      p = head ++ sep :: tail /\ ~ In sep tail /\
      rfind p sep = Z.of_nat (List.length head) /\ basename p = tail).
Proof.
  unfold basename, slice_from.
  destruct (rfind_spec p sep) as [[E Hnot]|(pre & post & Hp & Hpost & E)]; rewrite E.
  - left. repeat split; assumption.
  - right. exists pre, post. repeat split; try assumption.
    replace (Z.to_nat (Z.of_nat (List.length pre) + 1)) with (S (List.length pre)) by lia.
    subst p. apply skipn_past.
Qed.

(** A path whose last component has no dot has no extension. *)
Lemma splitext_no_dot (p : str) :
  ~ In extsep (basename p) -> splitext p = (p, []).
Proof.
  intros Hnodot. unfold splitext.
  assert (Hle : (rfind p extsep >? rfind p sep) = false); [|now rewrite Hle].
  rewrite Z.gtb_ltb. apply Z.ltb_ge.
  destruct (basename_spec p) as [(Hnosep & Es & Eb)|(head & tail & Hp & Htail & Es & Eb)];
    rewrite Eb in Hnodot; rewrite Es;
    destruct (rfind_spec p extsep) as [[Ed _]|(pre & post & Hp' & _ & Ed)];
    rewrite Ed; try lia.
  - exfalso. apply Hnodot. rewrite Hp'. apply in_elt.
  - destruct (Z.le_gt_cases (Z.of_nat (List.length pre)) (Z.of_nat (List.length head)))
      as [Hle|Hgt]; [exact Hle|].
    exfalso. apply Hnodot.
    assert (Hnth : nth_error p (List.length pre) = Some extsep).
    { rewrite Hp'. rewrite nth_error_app2 by lia. now rewrite Nat.sub_diag. }
    rewrite Hp in Hnth. rewrite nth_error_app2 in Hnth by lia.
    destruct (List.length pre - List.length head)%nat as [|k] eqn:Ek; [lia|].
    simpl in Hnth. eapply nth_error_In, Hnth.
Qed.

Lemma startswith_nil_r (s : str) : startswith s [] = true.
Proof. now destruct s. Qed.

Lemma startswith_app (s rest : str) : startswith (s ++ rest) s = true.
Proof.
  induction s as [|c s IH]; simpl; [apply startswith_nil_r|].
  now rewrite N.eqb_refl, IH.
Qed.

Lemma contains_suffix (prefix s : str) : contains (prefix ++ s) s = true.
Proof.
  induction prefix as [|c prefix IH]; simpl.
  - pose proof (startswith_app s []) as H. rewrite app_nil_r in H.
    destruct s as [|x s]; [reflexivity|].
    change (startswith (x :: s) (x :: s) || contains s (x :: s) = true).
    now rewrite H.
  - rewrite IH. apply orb_true_r.
Qed.

(** [lower] leaves alone a string of ASCII characters without capitals. *)
Lemma lower_fixed (env : Env) (s : str) :
  forallb (fun c => is_ascii c && negb (is_upper c)) s = true ->
  lower env s = s.
Proof.
  intros H. unfold lower, lower_with.
  assert (Ha : forallb is_ascii s = true).
  { rewrite forallb_forall in *. intros c Hc.
    specialize (H c Hc). now apply andb_prop in H as [-> _]. }
  rewrite Ha.
  induction s as [|c s IH]; simpl in *; [reflexivity|].
  apply andb_prop in H as [Hc Hs]. apply andb_prop in Hc as [_ Hc].
  apply andb_prop in Ha as [_ Ha].
  unfold ascii_lower at 1. unfold is_upper in Hc.
  apply negb_true_iff in Hc. rewrite Hc. f_equal. now apply IH.
Qed.

Lemma handler_of_no_extension (env : Env) :
  handler_of (supported_extensions env) [] = None.
Proof. reflexivity. Qed.

(** ** The extractors' error boundary *)

Lemma try_except_returns {A} (body : result A) (h : exn -> A) :
  exists a, try_except body (fun e => Ok (h e)) = Ok a.
Proof. destruct body; simpl; eauto. Qed.

(** The handlers that the dispatch table can hand out. *)
Lemma handler_of_cases (env : Env) (extension : str) (h : str -> result dict) :
  handler_of (supported_extensions env) extension = Some h ->
  In h [ extract_pdf_metadata env; extract_docx_metadata env;
         extract_xlsx_metadata env; extract_pptx_metadata env;
         extract_image_metadata env; extract_email_metadata env;
         extract_csv_metadata env ].
Proof.
  unfold supported_extensions. cbn [handler_of].
  repeat match goal with
         | |- context [if str_eqb ?k extension then _ else _] =>
             destruct (str_eqb k extension)
         end;
    intros [= <-]; simpl; tauto.
Qed.

Lemma handler_returns (env : Env) (h : str -> result dict) (file_path : str) :
  In h [ extract_pdf_metadata env; extract_docx_metadata env;
         extract_xlsx_metadata env; extract_pptx_metadata env;
         extract_image_metadata env; extract_email_metadata env;
         extract_csv_metadata env ] ->
  exists metadata, h file_path = Ok metadata.
Proof.
  intros H. simpl in H. decompose [or] H; try contradiction; subst h;
    apply try_except_returns.
Qed.

Lemma extract_metadata_dispatch (env : Env) (file_path extension : str)
    (h : str -> result dict) :
  lower env (snd (splitext file_path)) = extension ->
  handler_of (supported_extensions env) extension = Some h ->
  extract_metadata env file_path = h file_path.
Proof.
  unfold extract_metadata. destruct (splitext file_path) as [root ext]. simpl.
  now intros -> ->.
Qed.

Lemma extract_metadata_unsupported (env : Env) (file_path : str) :
  handler_of (supported_extensions env) (lower env (snd (splitext file_path))) = None ->
  extract_metadata env file_path
  = Ok (error_result (lit "Unsupported file type: " ++ lower env (snd (splitext file_path)))).
Proof.
  unfold extract_metadata. destruct (splitext file_path) as [root ext]. simpl.
  now intros ->.
Qed.

Lemma caught_as_handler (env : Env) (file_path : str) (extensions : list str)
    (h : str -> result dict) (try_block : result dict) (message : str) :
  (forall extension, In extension extensions ->
                     handler_of (supported_extensions env) extension = Some h) ->
  (forall e, try_block = Raise e -> h file_path = Ok (error_result (message ++ exn_str e))) ->
  caught_as env file_path extensions try_block message.
Proof.
  intros Htable Hh e Hext Hraise.
  rewrite (extract_metadata_dispatch _ _ eq_refl (Htable _ Hext)).
  now apply Hh.
Qed.

Ltac caught_by_handler handler :=
  apply caught_as_handler with (h := handler);
  [ intros extension Hin; simpl in Hin; decompose [or] Hin;
    try contradiction; subst extension; reflexivity
  | intros e Hraise;
    unfold extract_pdf_metadata, extract_docx_metadata, extract_xlsx_metadata,
      extract_pptx_metadata, extract_image_metadata, extract_email_metadata,
      extract_csv_metadata;
    rewrite Hraise; reflexivity ].

(** C2.  [extract_metadata] returns a mapping for every path.  An exception
    raised anywhere in the [try] block of the invoked extractor is returned
    as the one-key mapping [{"error": message}] with the message of that
    format; a PDF that cannot be opened gives the PDF message. *)
Theorem extract_metadata_never_raises (env : Env) (file_path : str) :
  (exists metadata, extract_metadata env file_path = Ok metadata) /\
  caught_as env file_path [lit ".pdf"] (pdf_try env file_path)
    (lit "Failed to extract PDF metadata: ") /\
  caught_as env file_path [lit ".docx"] (docx_try env file_path)
    (lit "Failed to extract Word metadata: ") /\
  caught_as env file_path [lit ".xlsx"] (xlsx_try env file_path)
    (lit "Failed to extract Excel metadata: ") /\
  caught_as env file_path [lit ".pptx"] (pptx_try env file_path)
    (lit "Failed to extract PowerPoint metadata: ") /\
  caught_as env file_path [lit ".jpg"; lit ".jpeg"; lit ".png"] (image_try env file_path)
    (lit "Failed to extract image metadata: ") /\
  caught_as env file_path [lit ".eml"] (email_try env file_path)
    (lit "Failed to extract email metadata: ") /\
  caught_as env file_path [lit ".csv"] (csv_try env file_path)
    (lit "Failed to extract CSV metadata: ") /\
  (forall e,
      lower env (snd (splitext file_path)) = lit ".pdf" ->
      open_PdfReader env file_path = Raise e ->
      extract_metadata env file_path
      = Ok (error_result (lit "Failed to extract PDF metadata: " ++ exn_str e))).
Proof.
  split; [|repeat apply conj].
  - destruct (handler_of (supported_extensions env)
                (lower env (snd (splitext file_path)))) as [h|] eqn:Hh.
    + rewrite (extract_metadata_dispatch _ _ eq_refl Hh).
      eapply handler_returns, handler_of_cases, Hh.
    + rewrite (extract_metadata_unsupported _ _ Hh). eauto.
  - caught_by_handler (extract_pdf_metadata env).
  - caught_by_handler (extract_docx_metadata env).
  - caught_by_handler (extract_xlsx_metadata env).
  - caught_by_handler (extract_pptx_metadata env).
  - caught_by_handler (extract_image_metadata env).
  - caught_by_handler (extract_email_metadata env).
  - caught_by_handler (extract_csv_metadata env).
  - intros e Hext Hopen.
    erewrite (extract_metadata_dispatch _ _ Hext) by reflexivity.
    unfold extract_pdf_metadata, pdf_try. now rewrite Hopen.
Qed.

Lemma extract_metadata_never_raises_witness :
  extract_metadata no_files (lit "scans/missing.PDF")
  = Ok (error_result (lit "Failed to extract PDF metadata: " ++ exn_str FileNotFoundError)).
Proof.
  destruct (extract_metadata_never_raises no_files (lit "scans/missing.PDF"))
    as (_ & _ & _ & _ & _ & _ & _ & _ & Hpdf).
  apply Hpdf; reflexivity.
Defined.

(** ** Unsupported extensions *)

(** [report.XYZ]: the message carries [.xyz], not [.XYZ]. *)
Lemma literal_extension_not_reported :
  ~ reports_literal_extension no_files (lit "report.XYZ").
Proof.
  intros H. destruct H as (message & E & C); [reflexivity|].
  vm_compute in E. injection E as <-.
  vm_compute in C. discriminate.
Qed.

(** C3, amended.  When the lowercased extension of the path is not in the
    dispatch table, the result is the one-key error mapping whose message
    is ["Unsupported file type: "] followed by the lowercased extension,
    which for an ASCII extension is the extension with [A-Z] replaced by
    [a-z]; the message contains the extension as written in the path
    whenever that consists of ASCII characters none of which is a capital
    letter. *)
Theorem unsupported_extension_reported (env : Env) (file_path : str) :
  let extension := snd (splitext file_path) in
  handler_of (supported_extensions env) (lower env extension) = None ->
  exists message,
    extract_metadata env file_path = Ok (error_result message) /\
    message = lit "Unsupported file type: " ++ lower env extension /\
    contains message (lower env extension) = true /\
    (forallb (fun c => is_ascii c && negb (is_upper c)) extension = true ->
     contains message extension = true) /\
    (forallb is_ascii extension = true ->
     message = lit "Unsupported file type: " ++ map ascii_lower extension).
Proof.
  intros extension Hnone. eexists. split; [|split; [reflexivity|split; [|split]]].
  - now apply extract_metadata_unsupported.
  - apply contains_suffix.
  - intros Hlow. rewrite <- (lower_fixed env _ Hlow) at 2. apply contains_suffix.
  - intros Hascii. unfold lower, lower_with. now rewrite Hascii.
Qed.

Lemma unsupported_extension_reported_witness :
  exists message,
    extract_metadata no_files (lit "notes/report.XYZ") = Ok (error_result message) /\
    message = lit "Unsupported file type: .xyz".
Proof.
  destruct (unsupported_extension_reported no_files (lit "notes/report.XYZ"))
    as (message & E & Hm & _); [reflexivity|].
  exists message. split; [exact E | exact Hm].
Defined.

(** C9.  A path whose last component contains no dot has the empty
    extension, and for every path with the empty extension the result is
    the error mapping that reports the empty extension. *)
Theorem no_extension_unsupported (env : Env) (file_path : str) :
  (~ In extsep (basename file_path) -> snd (splitext file_path) = []) /\
  (snd (splitext file_path) = [] ->
   extract_metadata env file_path = Ok (error_result (lit "Unsupported file type: "))).
Proof.
  split.
  - intros Hnodot. now rewrite (splitext_no_dot _ Hnodot).
  - intros Hext.
    rewrite extract_metadata_unsupported; rewrite Hext.
    + change (lower env []) with (@nil N). now rewrite app_nil_r.
    + apply handler_of_no_extension.
Qed.

Lemma no_extension_unsupported_witness :
  ~ In extsep (basename (lit "archive.d/README")) /\
  extract_metadata no_files (lit "archive.d/README")
  = Ok (error_result (lit "Unsupported file type: ")).
Proof.
  assert (H : ~ In extsep (basename (lit "archive.d/README"))).
  { vm_compute. intros H. decompose [or] H; try discriminate; contradiction. }
  split; [exact H|].
  destruct (no_extension_unsupported no_files (lit "archive.d/README")) as [Hext Herr].
  apply Herr, Hext, H.
Defined.

(** A name made of leading dots and letters has no extension either. *)
Example dotfile_unsupported :
  extract_metadata no_files (lit "home/.bashrc")
  = Ok (error_result (lit "Unsupported file type: ")).
Proof. reflexivity. Qed.

(** ** Empty documents and missing optional fields *)

(** A PDF without pages: taking the first page raises inside the [try]
    block, so the extractor returns the error result. *)
Lemma pdf_without_pages (env : Env) (file_path : str) (pdf : PdfReader)
    (info : option (list (str * pyobj))) :
  open_PdfReader env file_path = Ok pdf ->
  pdf_metadata pdf = Ok info ->
  pdf_pages pdf = Ok [] ->
  extract_pdf_metadata env file_path
  = Ok (error_result (lit "Failed to extract PDF metadata: " ++ IndexError_message)).
Proof.
  intros Hopen Hinfo Hpages.
  unfold extract_pdf_metadata, pdf_try. rewrite Hopen. simpl.
  rewrite Hinfo. simpl. rewrite Hpages. reflexivity.
Qed.

(** C5, at a PDF with zero pages: the result is an error result, where the
    claim asks for a mapping with an empty preview. *)
Theorem zero_page_pdf_is_error :
  extract_metadata zero_page_pdf_env (lit "empty.pdf")
  = Ok (error_result (lit "Failed to extract PDF metadata: sequence index out of range")).
Proof. reflexivity. Qed.

(** The Word extractor guards the same access: no paragraphs gives the
    empty preview. *)
Lemma docx_without_paragraphs (env : Env) (file_path : str) (doc : Document) :
  open_Document env file_path = Ok doc ->
  paragraphs doc = [] ->
  exists metadata,
    extract_docx_metadata env file_path = Ok metadata /\
    dict_get metadata (lit "paragraph_count") = Some (VInt 0) /\
    dict_get metadata (lit "text_preview") = Some (VStr (lit "")) /\
    dict_get metadata (lit "error") = None.
Proof.
  intros Hopen Hpar. unfold extract_docx_metadata, docx_try.
  rewrite Hopen. simpl. rewrite Hpar. simpl.
  eexists. split; [reflexivity|]. repeat split.
Qed.

(** An image without an EXIF block: the three basic fields and no
    [exif_] key. *)
Lemma image_without_exif (env : Env) (file_path : str) (img : Image) :
  Image_open env file_path = Ok img ->
  _getexif img = Ok None ->
  extract_image_metadata env file_path
  = Ok [ (lit "format", opt_value (format img));
         (lit "size", VStr (str_int (width img) ++ lit "x" ++ str_int (height img)));
         (lit "mode", VStr (mode img)) ].
Proof.
  intros Hopen Hexif. unfold extract_image_metadata, image_try.
  rewrite Hopen. simpl. rewrite Hexif. reflexivity.
Qed.

(** An empty CSV file: no header, zero columns and rows. *)
Lemma csv_empty (env : Env) (file_path : str) :
  open_csv_reader env file_path = Ok {| csv_rows := []; csv_failure := None |} ->
  extract_csv_metadata env file_path
  = Ok [ (lit "column_count", VInt 0);
         (lit "column_names", VList []);
         (lit "row_count", VInt 0) ].
Proof.
  intros Hopen. unfold extract_csv_metadata, csv_try. rewrite Hopen. reflexivity.
Qed.

(** ** CSV *)

(** C7.  A CSV file whose reader yields the header [a,b,c] and then two
    more rows gives three columns with those names and a row count of 2. *)
Theorem csv_header_and_two_rows (env : Env) (file_path : str) (row1 row2 : list str) :
  open_csv_reader env file_path
  = Ok {| csv_rows := [[lit "a"; lit "b"; lit "c"]; row1; row2]; csv_failure := None |} ->
  extract_csv_metadata env file_path
  = Ok [ (lit "column_count", VInt 3);
         (lit "column_names", VList [VStr (lit "a"); VStr (lit "b"); VStr (lit "c")]);
         (lit "row_count", VInt 2) ].
Proof.
  intros Hopen. unfold extract_csv_metadata, csv_try. rewrite Hopen. reflexivity.
Qed.

Lemma csv_header_and_two_rows_witness :
  extract_csv_metadata sample_csv_env (lit "table.csv")
  = Ok [ (lit "column_count", VInt 3);
         (lit "column_names", VList [VStr (lit "a"); VStr (lit "b"); VStr (lit "c")]);
         (lit "row_count", VInt 2) ].
Proof.
  apply (@csv_header_and_two_rows sample_csv_env (lit "table.csv")
           [lit "1"; lit "2"; lit "3"] [lit "4"; lit "5"; lit "6"]).
  reflexivity.
Defined.

(** ** Persistence *)

Lemma fold_left_max_ge (l : list Z) (a : Z) : a <= fold_left Z.max l a.
Proof.
  revert a. induction l as [|x l IH]; intros a; simpl; [lia|].
  specialize (IH (Z.max a x)). lia.
Qed.

(** What a completed [save_metadata] did. *)
Lemma save_metadata_inv (io : storage) (db : database) (now file_path : str)
    (metadata : dict) (metadata_hash : str) (db' : database) (rowid : Z) :
  save_metadata io db now file_path metadata metadata_hash = Ok (db', rowid) ->
  next_rowid db = Ok rowid /\
  db' = mkDatabase
          (document_metadata db ++
             [mkRow rowid file_path (basename file_path) metadata_hash now
                    (dumps false metadata)])
          rowid.
Proof.
  unfold save_metadata, raise_if.
  destruct (connect_error io); cbn [bind]; [discriminate|].
  destruct (bind_parameters _); cbn [bind]; [|discriminate].
  destruct (write_error io); cbn [bind]; [discriminate|].
  destruct (next_rowid db) as [r|e]; cbn [bind]; [|discriminate].
  intros [= <- <-]. split; reflexivity.
Qed.

Lemma next_rowid_above (db : database) (rowid : Z) :
  next_rowid db = Ok rowid -> sqlite_sequence db < rowid.
Proof.
  unfold next_rowid.
  destruct (max_rowid <=? _); [discriminate|]. intros [= <-].
  pose proof (fold_left_max_ge (map id (document_metadata db)) (sqlite_sequence db)). lia.
Qed.

(** C10.  The row that [save_metadata] inserts stores the path unchanged
    and, as the file name, the part of the path after its last separator. *)
Theorem save_metadata_file_name (io : storage) (db : database) (now path : str)
    (metadata : dict) (metadata_hash : str) (db' : database) (rowid : Z) :
  save_metadata io db now path metadata metadata_hash = Ok (db', rowid) ->
  exists new_row,
    document_metadata db' = document_metadata db ++ [new_row] /\
    id new_row = rowid /\
    file_path new_row = path /\
    file_name new_row = basename path /\
    ~ In sep (file_name new_row) /\
    (file_name new_row = path \/
     exists directory, path = directory ++ sep :: file_name new_row).
Proof.
  intros Hsave. apply save_metadata_inv in Hsave as [_ ->].
  eexists. split; [reflexivity|]. simpl. repeat split.
  - destruct (basename_spec path) as [(H & _ & ->)|(head & tail & _ & H & _ & ->)];
      exact H.
  - destruct (basename_spec path) as [(_ & _ & ->)|(head & tail & Hp & _ & _ & ->)].
    + now left.
    + right. now exists head.
Qed.

Example hash_metadata_sample : hash_metadata sample_metadata = Ok sample_hash.
Proof. vm_compute. reflexivity. Qed.

Lemma save_metadata_file_name_witness :
  exists new_row,
    document_metadata
      (mkDatabase [mkRow 1 (lit "/srv/docs/report.pdf") (lit "report.pdf") sample_hash
                         (lit "2024-06-01T10:00:00.000000") (dumps false sample_metadata)] 1)
    = [new_row] /\
    file_path new_row = lit "/srv/docs/report.pdf" /\
    file_name new_row = lit "report.pdf".
Proof.
  destruct (@save_metadata_file_name storage_ok create_tables
              (lit "2024-06-01T10:00:00.000000")
              (lit "/srv/docs/report.pdf") sample_metadata sample_hash
              (mkDatabase [mkRow 1 (lit "/srv/docs/report.pdf") (lit "report.pdf") sample_hash
                                 (lit "2024-06-01T10:00:00.000000")
                                 (dumps false sample_metadata)] 1)
              1 eq_refl)
    as (new_row & Htable & _ & Hpath & Hname & _).
  exists new_row. repeat split; assumption.
Defined.

Lemma get_all_metadata_perm (db : database) :
  Permutation (get_all_metadata db) (document_metadata db).
Proof. symmetry. apply insertion_sort_perm. Qed.

Lemma get_all_metadata_newest_first (db : database) : newest_first (get_all_metadata db).
Proof.
  apply (insertion_sort_sorted timestamp_desc).
  - intros x y. apply str_leb_total.
  - intros x y z Hxy Hyz. unfold timestamp_desc in *. eapply str_leb_trans; eassumption.
Qed.

Example db_before_clock_change_reached :
  save_metadata storage_ok create_tables (lit "2024-10-27T01:59:30.250000") (lit "a.csv")
    sample_metadata sample_hash
  = Ok (db_before_clock_change, 1).
Proof. reflexivity. Qed.

(** The local clock is set back an hour and a second record is saved at
    01:00:10: the older record is still listed first. *)
Lemma saved_record_not_listed_first :
  ~ saved_record_listed_first db_before_clock_change
      (lit "2024-10-27T01:00:10.500000") (lit "b.csv") sample_metadata sample_hash.
Proof.
  intros H.
  destruct (H storage_ok _ _ eq_refl) as (_ & first & rest & Hrows & Hid & _).
  vm_compute in Hrows. injection Hrows as <- _. discriminate Hid.
Qed.

(** C4, amended.  After a completed save, [get_all_metadata] returns all
    stored records in descending order of timestamp; the record just saved
    is among them with the hash that was passed, and it is the first one
    when its timestamp is greater than every timestamp stored before. *)
Theorem save_then_list (io : storage) (db : database) (now path : str)
    (metadata : dict) (hash : str) (db' : database) (rowid : Z) :
  save_metadata io db now path metadata hash = Ok (db', rowid) ->
  Permutation (get_all_metadata db') (document_metadata db') /\
  newest_first (get_all_metadata db') /\
  exists saved,
    In saved (get_all_metadata db') /\
    id saved = rowid /\ metadata_hash saved = hash /\ timestamp saved = now /\
    ((forall r, In r (document_metadata db) -> str_ltb (timestamp r) now = true) ->
     exists rest, get_all_metadata db' = saved :: rest).
Proof.
  intros Hsave. apply save_metadata_inv in Hsave as [_ ->].
  split; [apply get_all_metadata_perm|].
  split; [apply get_all_metadata_newest_first|].
  eexists. split; [|split; [|split; [|split]]].
  - unfold get_all_metadata. apply insertion_sort_In.
    simpl. apply in_or_app. right. left. reflexivity.
  - reflexivity.
  - reflexivity.
  - reflexivity.
  - intros Hnewer. unfold get_all_metadata. simpl document_metadata.
    rewrite insertion_sort_last_first; [eauto|].
    intros r Hr. unfold timestamp_desc, str_leb. simpl.
    now rewrite (Hnewer r Hr).
Qed.

Lemma save_then_list_witness :
  exists saved rest,
    get_all_metadata
      (mkDatabase
         (document_metadata db_before_clock_change ++
            [mkRow 2 (lit "b.csv") (lit "b.csv") sample_hash
                   (lit "2024-10-27T02:00:10.500000") (dumps false sample_metadata)])
         2)
    = saved :: rest /\
    id saved = 2 /\ metadata_hash saved = sample_hash.
Proof.
  destruct (@save_then_list storage_ok db_before_clock_change
              (lit "2024-10-27T02:00:10.500000")
              (lit "b.csv") sample_metadata sample_hash _ 2 eq_refl)
    as (_ & _ & saved & _ & Hid & Hhash & _ & Hfirst).
  destruct Hfirst as [rest Hrows].
  - intros r Hr. simpl in Hr. destruct Hr as [<-|[]]. reflexivity.
  - exists saved, rest. repeat split; assumption.
Defined.

(** Two saves for which the clock gives the same reading store the same
    timestamp. *)
Lemma two_saves_same_timestamp :
  ~ two_saves_differ create_tables
      (lit "2024-06-01T10:00:00.015625") (lit "2024-06-01T10:00:00.015625")
      (lit "a.csv") sample_metadata sample_hash.
Proof.
  intros H.
  destruct (H storage_ok storage_ok _ _ _ _ eq_refl eq_refl)
    as (r1 & r2 & Hrows & _ & _ & Hts).
  simpl in Hrows. injection Hrows as <- <-. apply Hts. reflexivity.
Qed.

(** C6, amended.  Two completed saves of the same metadata with its hash
    add two distinct rows with that same hash and with different ids; each
    row carries the clock reading of its own save, so the timestamps differ
    exactly when the two readings do. *)
Theorem save_twice (io1 io2 : storage) (db : database) (now1 now2 path1 path2 : str)
    (metadata : dict) (hash : str) (db1 db2 : database) (id1 id2 : Z) :
  hash_metadata metadata = Ok hash ->
  save_metadata io1 db now1 path1 metadata hash = Ok (db1, id1) ->
  save_metadata io2 db1 now2 path2 metadata hash = Ok (db2, id2) ->
  exists r1 r2,
    document_metadata db2 = document_metadata db ++ [r1; r2] /\
    r1 <> r2 /\
    metadata_hash r1 = hash /\ metadata_hash r2 = hash /\
    metadata_json r1 = metadata_json r2 /\
    id r1 = id1 /\ id r2 = id2 /\ id1 < id2 /\
    timestamp r1 = now1 /\ timestamp r2 = now2 /\
    (timestamp r1 <> timestamp r2 <-> now1 <> now2).
Proof.
  intros _ Hsave1 Hsave2.
  apply save_metadata_inv in Hsave1 as [Hid1 ->].
  apply save_metadata_inv in Hsave2 as [Hid2 ->].
  apply next_rowid_above in Hid2. simpl in Hid2.
  do 2 eexists. split; [simpl; rewrite <- app_assoc; reflexivity|].
  simpl. repeat split; try assumption; try reflexivity; try tauto.
  intros [= E]. lia.
Qed.

Lemma save_twice_witness :
  exists r1 r2,
    id r1 = 1 /\ id r2 = 2 /\
    metadata_hash r1 = metadata_hash r2 /\
    timestamp r1 = lit "2024-10-27T01:59:30.250000" /\
    timestamp r2 = lit "2024-10-27T01:00:10.500000".
Proof.
  destruct (@save_twice storage_ok storage_ok create_tables
              (lit "2024-10-27T01:59:30.250000") (lit "2024-10-27T01:00:10.500000")
              (lit "a.csv") (lit "b.csv") sample_metadata sample_hash
              _ _ 1 2 hash_metadata_sample eq_refl eq_refl)
    as (r1 & r2 & _ & _ & H1 & H2 & _ & Hid1 & Hid2 & _ & Ht1 & Ht2 & _).
  exists r1, r2. repeat split; try assumption. congruence.
Defined.

(* ===================================================================== *)
(** * Further properties of the code *)
(* ===================================================================== *)

(** ** os.path: where the extension starts *)

Lemma last_occurrence_unique {A} (c : A) (pre pre' post post' : list A) :
  pre ++ c :: post = pre' ++ c :: post' ->
  ~ In c post -> ~ In c post' ->
  pre = pre' /\ post = post'.
Proof.
  revert pre'. induction pre as [|x pre IH]; intros [|y pre'] E Hp Hp'; simpl in E.
  - injection E as ->. now split.
  - injection E as <- ->. exfalso. apply Hp. apply in_elt.
  - injection E as -> <-. exfalso. apply Hp'. apply in_elt.
  - injection E as <- E. destruct (IH _ E Hp Hp') as [-> ->]. now split.
Qed.

Lemma rfind_found (pre post : str) (c : N) :
  ~ In c post -> rfind (pre ++ c :: post) c = Z.of_nat (List.length pre).
Proof.
  intros Hpost.
  destruct (rfind_spec (pre ++ c :: post) c) as [[_ Hnot]|(pre' & post' & E & Hpost' & ->)].
  - exfalso. apply Hnot, in_elt.
  - now destruct (last_occurrence_unique _ _ _ _ _ E Hpost Hpost') as [-> _].
Qed.

Lemma rfind_not_found (s : str) (c : N) : ~ In c s -> rfind s c = -1.
Proof.
  intros Hnot.
  destruct (rfind_spec s c) as [[E _]|(pre & post & -> & _ & _)]; [exact E|].
  exfalso. apply Hnot, in_elt.
Qed.

Lemma rfind_range (s : str) (c : N) :
  -1 <= rfind s c < Z.of_nat (List.length s).
Proof.
  destruct (rfind_spec s c) as [[-> _]|(pre & post & -> & _ & ->)].
  - lia.
  - rewrite length_app. simpl. lia.
Qed.

(** The loop over the leading dots looks at [p[i:i+n]]. *)
Lemma has_non_dot_spec (p : str) (steps : nat) (i : Z) :
  0 <= i -> (Z.to_nat i + steps <= List.length p)%nat ->
  has_non_dot p i steps
  = existsb (fun c => negb (c =? extsep)%N) (firstn steps (skipn (Z.to_nat i) p)).
Proof.
  revert i. induction steps as [|steps IH]; intros i Hi Hlen; [reflexivity|].
  cbn [has_non_dot]. unfold slice_from, slice_to.
  destruct (skipn (Z.to_nat i) p) as [|x rest] eqn:E.
  - exfalso. apply (f_equal (@List.length N)) in E. rewrite length_skipn in E.
    simpl in E. lia.
  - assert (Hrest : skipn (Z.to_nat (i + 1)) p = rest).
    { replace (Z.to_nat (i + 1)) with (1 + Z.to_nat i)%nat by lia.
      rewrite <- skipn_skipn, E. reflexivity. }
    rewrite IH by lia. rewrite Hrest.
    change (firstn (Z.to_nat 1) (x :: rest)) with [x].
    cbn [firstn existsb].
    destruct (x =? extsep)%N eqn:Hx.
    + apply N.eqb_eq in Hx. subst x. reflexivity.
    + assert (Hne : str_eqb [x] [extsep] = false).
      { apply str_eqb_neq. intros [= ->]. now rewrite N.eqb_refl in Hx. }
      now rewrite Hne.
Qed.

Lemma firstn_exact {A} (l r : list A) : firstn (List.length l) (l ++ r) = l.
Proof.
  rewrite firstn_app, Nat.sub_diag, firstn_all. simpl. apply app_nil_r.
Qed.

Lemma skipn_exact {A} (l r : list A) : skipn (List.length l) (l ++ r) = r.
Proof.
  rewrite skipn_app, Nat.sub_diag, skipn_all. reflexivity.
Qed.

Lemma existsb_non_dot (s : str) (c : N) :
  In c s -> c <> extsep -> existsb (fun c => negb (c =? extsep)%N) s = true.
Proof.
  intros Hin Hne. apply existsb_exists. exists c. split; [exact Hin|].
  apply negb_true_iff, N.eqb_neq, Hne.
Qed.

Lemma splitext_of_appended (stem e : str) (c : N) :
  In c (basename stem) -> c <> extsep ->
  ~ In extsep e -> ~ In sep e ->
  splitext (stem ++ extsep :: e) = (stem, extsep :: e).
Proof.
  intros Hc Hne Hdot Hsep. unfold splitext.
  rewrite (rfind_found stem e extsep Hdot).
  assert (Hslices :
            (slice_to (stem ++ extsep :: e) (Z.of_nat (List.length stem)),
             slice_from (stem ++ extsep :: e) (Z.of_nat (List.length stem)))
            = (stem, extsep :: e)).
  { unfold slice_to, slice_from. rewrite Nat2Z.id.
    now rewrite firstn_exact, skipn_exact. }
  destruct (basename_spec stem) as [(Hnosep & _ & Eb)|(head & tail & Hs & Htail & _ & Eb)];
    rewrite Eb in Hc.
  - rewrite rfind_not_found.
    2:{ intros Hin. apply in_app_or in Hin as [Hin|[Hin|Hin]];
        [now apply Hnosep | discriminate Hin | now apply Hsep]. }
    rewrite has_non_dot_spec by (rewrite ?length_app; simpl; lia).
    replace (Z.to_nat (Z.of_nat (List.length stem) - (-1 + 1))) with (List.length stem) by lia.
    change (Z.to_nat (-1 + 1)) with 0%nat. rewrite skipn_O, firstn_exact.
    rewrite (existsb_non_dot _ Hc Hne).
    replace (Z.of_nat (List.length stem) >? -1) with true by (symmetry; apply Z.gtb_lt; lia).
    exact Hslices.
  - assert (Hp : stem ++ extsep :: e = head ++ sep :: (tail ++ extsep :: e)).
    { rewrite Hs, <- app_assoc. reflexivity. }
    assert (Hrf : rfind (stem ++ extsep :: e) sep = Z.of_nat (List.length head)).
    { rewrite Hp. apply rfind_found.
      intros Hin. apply in_app_or in Hin as [Hin|[Hin|Hin]];
        [now apply Htail | discriminate Hin | now apply Hsep]. }
    rewrite Hrf.
    assert (Hlen : List.length stem = (List.length head + 1 + List.length tail)%nat).
    { rewrite Hs, length_app. simpl. lia. }
    rewrite has_non_dot_spec by (rewrite ?length_app; simpl; lia).
    replace (Z.to_nat (Z.of_nat (List.length stem) - (Z.of_nat (List.length head) + 1)))
      with (List.length tail) by lia.
    replace (Z.to_nat (Z.of_nat (List.length head) + 1))
      with (List.length (head ++ [sep])) by (rewrite length_app; simpl; lia).
    replace (stem ++ extsep :: e) with ((head ++ [sep]) ++ tail ++ extsep :: e)
      by (rewrite Hp, <- app_assoc; reflexivity).
    rewrite skipn_exact, firstn_exact, (existsb_non_dot _ Hc Hne).
    replace (Z.of_nat (List.length stem) >? Z.of_nat (List.length head)) with true
      by (symmetry; apply Z.gtb_lt; lia).
    replace ((head ++ [sep]) ++ tail ++ extsep :: e) with (stem ++ extsep :: e)
      by (rewrite Hp, <- app_assoc; reflexivity).
    exact Hslices.
Qed.

(** X2.  Appending a dot and a suffix without dots or separators to a path
    whose last component has a character other than a dot makes that suffix
    the extension. *)
Theorem splitext_appended (stem e : str) (c : N) :
  In c (basename stem) -> c <> extsep ->
  ~ In extsep e -> ~ In sep e ->
  splitext (stem ++ extsep :: e) = (stem, extsep :: e).
Proof. apply splitext_of_appended. Qed.

Lemma splitext_appended_witness :
  splitext (lit "docs/v1.2/report" ++ extsep :: lit "PDF")
  = (lit "docs/v1.2/report", extsep :: lit "PDF").
Proof.
  apply (@splitext_appended (lit "docs/v1.2/report") (lit "PDF") 114%N).
  - vm_compute. tauto.
  - discriminate.
  - vm_compute. intuition discriminate.
  - vm_compute. intuition discriminate.
Defined.

Lemma In_skipn {A} (x : A) (n : nat) (l : list A) : In x (skipn n l) -> In x l.
Proof.
  intros H. rewrite <- (firstn_skipn n l). apply in_or_app. now right.
Qed.

(** X1.  [splitext] cuts the path in two parts that concatenate back to it.
    The extension is empty or is a dot followed by characters that are
    neither dots nor separators, and then the root is not empty. *)
Theorem splitext_parts (p : str) :
  fst (splitext p) ++ snd (splitext p) = p /\
  (snd (splitext p) = [] \/
   exists e, snd (splitext p) = extsep :: e /\
             ~ In extsep e /\ ~ In sep e /\ fst (splitext p) <> []).
Proof.
  unfold splitext.
  destruct ((rfind p extsep >? rfind p sep) &&
            has_non_dot p (rfind p sep + 1)
              (Z.to_nat (rfind p extsep - (rfind p sep + 1)))) eqn:Hcond.
  2:{ simpl. rewrite app_nil_r. split; [reflexivity | now left]. }
  apply andb_prop in Hcond as [Hgt Hloop]. apply Z.gtb_lt in Hgt.
  pose proof (rfind_range p sep) as Hsr.
  cbn [fst snd]. unfold slice_to, slice_from. split; [apply firstn_skipn|].
  right.
  destruct (rfind_spec p extsep) as [[E _]|(pre & post & Hp & Hpost & E)];
    rewrite E in *; [lia|].
  rewrite Nat2Z.id. exists post. subst p.
  rewrite skipn_exact, firstn_exact. repeat split.
  - exact Hpost.
  - intros Hin.
    destruct (rfind_spec (pre ++ extsep :: post) sep)
      as [[_ Hnot]|(pre' & post' & Hp' & Hpost' & E')].
    + apply Hnot. apply in_or_app. right. now right.
    + rewrite E' in Hgt. apply Hpost'.
      assert (Hs1 : skipn (S (List.length pre)) (pre ++ extsep :: post) = post)
        by apply skipn_past.
      assert (Hs2 : skipn (S (List.length pre')) (pre ++ extsep :: post) = post').
      { rewrite Hp'. apply skipn_past. }
      rewrite <- Hs2.
      apply (@In_skipn _ sep (List.length pre - List.length pre')).
      rewrite skipn_skipn.
      replace (List.length pre - List.length pre' + S (List.length pre'))%nat
        with (S (List.length pre)) by lia.
      now rewrite Hs1.
  - intros ->. cbn [app List.length] in *.
    replace (Z.to_nat (Z.of_nat 0 - (rfind (extsep :: post) sep + 1))) with 0%nat in Hloop
      by lia.
    discriminate Hloop.
Qed.

Lemma extract_metadata_empty_extension (env : Env) (p : str) :
  snd (splitext p) = [] ->
  extract_metadata env p = Ok (error_result (lit "Unsupported file type: ")).
Proof.
  intros Hext. rewrite extract_metadata_unsupported; rewrite Hext.
  - change (lower env []) with (@nil N). now rewrite app_nil_r.
  - apply handler_of_no_extension.
Qed.

(** A directory prefix: empty, or ending in the separator. *)
Definition is_dir_prefix (dir : str) : Prop :=
  dir = [] \/ exists d, dir = d ++ [sep].

Lemma rfind_sep_after_dir (dir rest : str) :
  is_dir_prefix dir -> ~ In sep rest ->
  rfind (dir ++ rest) sep + 1 = Z.of_nat (List.length dir).
Proof.
  intros [->|[d ->]] Hrest.
  - simpl. now rewrite rfind_not_found.
  - rewrite <- app_assoc. simpl. rewrite (rfind_found d rest sep Hrest).
    rewrite length_app. simpl. lia.
Qed.

Lemma existsb_repeat_dots (k : nat) :
  existsb (fun c => negb (c =? extsep)%N) (repeat extsep k) = false.
Proof. induction k as [|k IH]; simpl; [reflexivity | exact IH]. Qed.

Lemma firstn_repeat_app {A} (x : A) (k : nat) (rest : list A) :
  firstn k (repeat x k ++ rest) = repeat x k.
Proof. induction k as [|k IH]; simpl; [reflexivity | now rewrite IH]. Qed.

Lemma splitext_leading_dots (dir name : str) (k : nat) :
  is_dir_prefix dir -> ~ In extsep name -> ~ In sep name ->
  splitext (dir ++ repeat extsep k ++ name) = (dir ++ repeat extsep k ++ name, []).
Proof.
  intros Hdir Hdot Hsep.
  assert (Hrest : ~ In sep (repeat extsep k ++ name)).
  { intros Hin. apply in_app_or in Hin as [Hin|Hin]; [|now apply Hsep].
    apply repeat_spec in Hin. discriminate Hin. }
  pose proof (@rfind_sep_after_dir dir _ Hdir Hrest) as Hs.
  unfold splitext.
  destruct k as [|k].
  - simpl repeat. simpl app.
    destruct Hdir as [->|[d ->]].
    + simpl. rewrite (rfind_not_found name extsep Hdot), (rfind_not_found name sep Hsep). reflexivity.
    + assert (Hd : rfind ((d ++ [sep]) ++ name) extsep <= rfind ((d ++ [sep]) ++ name) sep).
      { simpl in Hs.
        destruct (rfind_spec ((d ++ [sep]) ++ name) extsep)
          as [[-> _]|(pre & post & E & Hpost & ->)].
        - pose proof (rfind_range ((d ++ [sep]) ++ name) sep). lia.
        - destruct (Z.le_gt_cases (Z.of_nat (List.length pre))
                      (rfind ((d ++ [sep]) ++ name) sep)) as [Hle|Hgt]; [exact Hle|].
          exfalso. apply Hdot.
          assert (Hnth : nth_error ((d ++ [sep]) ++ name) (List.length pre) = Some extsep).
          { rewrite E, nth_error_app2 by lia. now rewrite Nat.sub_diag. }
          rewrite nth_error_app2 in Hnth by lia.
          eapply nth_error_In, Hnth. }
      replace (rfind ((d ++ [sep]) ++ name) extsep >? rfind ((d ++ [sep]) ++ name) sep)
        with false by (symmetry; rewrite Z.gtb_ltb; apply Z.ltb_ge; exact Hd).
      reflexivity.
  - assert (Hp : dir ++ repeat extsep (S k) ++ name
                 = (dir ++ repeat extsep k) ++ extsep :: name).
    { rewrite <- app_assoc. f_equal.
      change (repeat extsep (S k)) with (extsep :: repeat extsep k).
      rewrite repeat_cons, <- app_assoc. reflexivity. }
    assert (Hd : rfind (dir ++ repeat extsep (S k) ++ name) extsep
                 = Z.of_nat (List.length dir + k)).
    { rewrite Hp, (rfind_found _ name extsep Hdot), length_app, repeat_length. reflexivity. }
    rewrite Hd.
    rewrite has_non_dot_spec.
    2:{ lia. }
    2:{ rewrite Hs, !length_app, repeat_length. lia. }
    replace (Z.to_nat (rfind (dir ++ repeat extsep (S k) ++ name) sep + 1))
      with (List.length dir) by lia.
    replace (Z.to_nat (Z.of_nat (List.length dir + k)
                       - (rfind (dir ++ repeat extsep (S k) ++ name) sep + 1)))
      with k by lia.
    rewrite skipn_exact.
    replace (repeat extsep (S k) ++ name) with (repeat extsep k ++ extsep :: name).
    2:{ change (repeat extsep (S k)) with (extsep :: repeat extsep k).
        rewrite repeat_cons, <- app_assoc. reflexivity. }
    rewrite firstn_repeat_app, existsb_repeat_dots, andb_false_r.
    reflexivity.
Qed.

(** X3.  A file whose name is nothing but leading dots and a dot-free rest,
    such as [.pdf] or [..csv], has no extension and is reported as
    unsupported. *)
Theorem leading_dots_unsupported (env : Env) (dir name : str) (k : nat) :
  is_dir_prefix dir -> ~ In extsep name -> ~ In sep name ->
  extract_metadata env (dir ++ repeat extsep k ++ name)
  = Ok (error_result (lit "Unsupported file type: ")).
Proof.
  intros Hdir Hdot Hsep. apply extract_metadata_empty_extension.
  now rewrite splitext_leading_dots.
Qed.

Lemma leading_dots_unsupported_witness :
  extract_metadata no_files (lit "inbox/" ++ repeat extsep 1 ++ lit "pdf")
  = Ok (error_result (lit "Unsupported file type: ")).
Proof.
  apply leading_dots_unsupported.
  - right. exists (lit "inbox"). reflexivity.
  - vm_compute. intuition discriminate.
  - vm_compute. intuition discriminate.
Defined.

(** X4.  The base name of a directory prefix followed by a name without
    separators is that name; for a path that ends in a separator it is
    empty. *)
Theorem basename_joined (dir name : str) :
  is_dir_prefix dir -> ~ In sep name -> basename (dir ++ name) = name.
Proof.
  intros Hdir Hname. unfold basename, slice_from.
  rewrite (@rfind_sep_after_dir dir name Hdir Hname), Nat2Z.id.
  apply skipn_exact.
Qed.

Lemma basename_joined_witness :
  basename (lit "/srv/docs/" ++ lit "report.final.pdf") = lit "report.final.pdf" /\
  basename (lit "/srv/docs/" ++ []) = [].
Proof.
  split; apply basename_joined;
    try (right; exists (lit "/srv/docs"); reflexivity);
    vm_compute; intuition discriminate.
Defined.

(** ** The dispatcher *)

(** The keys of the dispatch table and the handler under each. *)
Lemma handler_of_keys (env : Env) (k : str) (h : str -> result dict) :
  handler_of (supported_extensions env) k = Some h ->
  (k = lit ".pdf" /\ h = extract_pdf_metadata env) \/
  (k = lit ".docx" /\ h = extract_docx_metadata env) \/
  (k = lit ".xlsx" /\ h = extract_xlsx_metadata env) \/
  (k = lit ".pptx" /\ h = extract_pptx_metadata env) \/
  (k = lit ".jpg" /\ h = extract_image_metadata env) \/
  (k = lit ".jpeg" /\ h = extract_image_metadata env) \/
  (k = lit ".png" /\ h = extract_image_metadata env) \/
  (k = lit ".eml" /\ h = extract_email_metadata env) \/
  (k = lit ".csv" /\ h = extract_csv_metadata env).
Proof.
  unfold supported_extensions. cbn [handler_of].
  repeat match goal with
         | |- context [if str_eqb ?key k then _ else _] =>
             let E := fresh "E" in
             destruct (str_eqb key k) eqn:E;
             [apply str_eqb_eq in E; subst k; intros [= <-];
              repeat (first [left; split; reflexivity | right]);
              split; reflexivity |]
         end.
  discriminate.
Qed.

(** Every key is a dot followed by letters. *)
Lemma handler_key_shape (env : Env) (k : str) (h : str -> result dict) :
  handler_of (supported_extensions env) k = Some h ->
  exists k', k = extsep :: k' /\ ~ In extsep k' /\ ~ In sep k'.
Proof.
  intros H. apply handler_of_keys in H.
  decompose [or and] H; subst k;
    (eexists; split; [reflexivity|]; split; vm_compute; intuition discriminate).
Qed.

Lemma ascii_lower_keeps (c x : N) :
  (x < 65)%N -> ascii_lower c = x -> c = x.
Proof.
  unfold ascii_lower. intros Hx.
  destruct ((65 <=? c) && (c <=? 90))%N eqn:E; [|auto].
  apply andb_prop in E as [E1 E2]. apply N.leb_le in E1, E2. lia.
Qed.

Lemma lowered_shape (ext k' : str) :
  map ascii_lower ext = extsep :: k' -> ~ In extsep k' -> ~ In sep k' ->
  exists e, ext = extsep :: e /\ ~ In extsep e /\ ~ In sep e.
Proof.
  destruct ext as [|c e]; [discriminate|]. simpl. intros [= Hc He] Hdot Hsep.
  apply (@ascii_lower_keeps c extsep) in Hc; [|reflexivity]. subst c.
  exists e. split; [reflexivity|].
  split; intros Hin; [apply Hdot | apply Hsep]; rewrite <- He;
    apply in_map_iff; eexists; (split; [|exact Hin]); reflexivity.
Qed.

(** X5.  Dispatch is case-insensitive: a path that ends in any ASCII
    spelling of a registered extension, after a last component with some
    character other than a dot, goes to the handler registered for the
    lowercase extension. *)
Theorem dispatch_case_insensitive (env : Env) (stem ext : str) (c : N)
    (h : str -> result dict) :
  In c (basename stem) -> c <> extsep ->
  forallb is_ascii ext = true ->
  handler_of (supported_extensions env) (map ascii_lower ext) = Some h ->
  extract_metadata env (stem ++ ext) = h (stem ++ ext).
Proof.
  intros Hc Hne Hascii Hh.
  destruct (handler_key_shape _ _ Hh) as (k' & Hk & Hdot & Hsep).
  destruct (lowered_shape _ Hk Hdot Hsep) as (e & -> & Hdot' & Hsep').
  apply extract_metadata_dispatch with (extension := map ascii_lower (extsep :: e));
    [|exact Hh].
  rewrite (@splitext_of_appended stem e c Hc Hne Hdot' Hsep'). simpl snd.
  unfold lower, lower_with. now rewrite Hascii.
Qed.

Lemma dispatch_case_insensitive_witness :
  extract_metadata no_files (lit "scans/Invoice 7" ++ lit ".JpEg")
  = extract_image_metadata no_files (lit "scans/Invoice 7" ++ lit ".JpEg").
Proof.
  apply (@dispatch_case_insensitive no_files (lit "scans/Invoice 7") (lit ".JpEg") 73%N).
  - vm_compute. tauto.
  - discriminate.
  - reflexivity.
  - reflexivity.
Defined.

(** ** Assignments to a metadata mapping *)

Lemma dict_get_set_same (d : dict) (k : str) (v : value) :
  dict_get (dict_set d k v) k = Some v.
Proof.
  induction d as [|[k' v'] d IH]; simpl.
  - now rewrite str_eqb_refl.
  - destruct (str_eqb k' k) eqn:E; simpl; rewrite E; [reflexivity | exact IH].
Qed.

Lemma dict_get_set_other (d : dict) (k k' : str) (v : value) :
  k <> k' -> dict_get (dict_set d k v) k' = dict_get d k'.
Proof.
  intros Hne. induction d as [|[k0 v0] d IH]; simpl.
  - apply str_eqb_neq in Hne. now rewrite Hne.
  - destruct (str_eqb k0 k) eqn:E; simpl.
    + apply str_eqb_eq in E. subst k0.
      apply str_eqb_neq in Hne. now rewrite Hne.
    + now rewrite IH.
Qed.

Lemma dict_set_keys (d : dict) (k : str) (v : value) (x : str) :
  In x (map fst (dict_set d k v)) <-> x = k \/ In x (map fst d).
Proof.
  induction d as [|[k' v'] d IH]; simpl.
  - intuition.
  - destruct (str_eqb k' k) eqn:E; simpl.
    + apply str_eqb_eq in E. subst k'. intuition.
    + rewrite IH. intuition.
Qed.

Lemma dict_set_wf (d : dict) (k : str) (v : value) :
  wf_dict d -> wf_dict (dict_set d k v).
Proof.
  unfold wf_dict. induction d as [|[k' v'] d IH]; simpl; intros Hnd.
  - repeat constructor. intros [].
  - inversion Hnd as [|? ? Hnotin Hnd']; subst.
    destruct (str_eqb k' k) eqn:E; simpl.
    + now constructor.
    + constructor; [|now apply IH].
      rewrite dict_set_keys. intros [->|Hin]; [|now apply Hnotin].
      now rewrite str_eqb_refl in E.
Qed.

Lemma dict_set_nonempty (d : dict) (k : str) (v : value) : dict_set d k v <> [].
Proof.
  destruct d as [|[k' v'] d]; simpl; [discriminate|].
  destruct (str_eqb k' k); discriminate.
Qed.

Lemma dict_get_key (d : dict) (k : str) :
  dict_get d k <> None <-> In k (map fst d).
Proof.
  induction d as [|[k' v'] d IH]; simpl; [tauto|].
  destruct (str_eqb k' k) eqn:E.
  - apply str_eqb_eq in E. subst k'. split; [now left | discriminate].
  - apply str_eqb_neq in E. rewrite IH. intuition.
Qed.

(** A loop of assignments keeps what each assignment keeps. *)
Lemma fold_left_invariant {A S} (P : S -> Prop) (step : S -> A -> S) (l : list A) (s : S) :
  (forall s a, P s -> P (step s a)) -> P s -> P (fold_left step l s).
Proof.
  intros Hstep. revert s. induction l as [|a l IH]; intros s Hs; simpl; [exact Hs|].
  apply IH, Hstep, Hs.
Qed.

Ltac lit_neq :=
  let E := fresh "E" in intros E; vm_compute in E; discriminate E.

(** One step through a [try] block that returned: the call at its head
    returned too. *)
Ltac returned :=
  match goal with
  | |- bind ?m _ = Ok _ -> _ =>
      let E := fresh "Hcall" in
      destruct m eqn:E; cbn [bind]; [|discriminate]
  end.

(** ** The PDF extractor *)

(** The key under which a document-information entry is stored. *)
Definition clean_key (key : str) : str :=
  if startswith key (lit "/") then slice_from key 1 else key.

(** The mapping after the loop over [pdf.metadata]. *)
Definition pdf_info_loop (info : option (list (str * pyobj))) : dict :=
  match info with
  | Some ((_ :: _) as entries) =>
      fold_left
        (fun (metadata : dict) (kv : str * pyobj) =>
           let (key, v) := kv in
           dict_set metadata (clean_key key) (VStr (py_str v)))
        entries []
  | _ => []
  end.

Lemma getitem_first {A} (l : list A) (a : A) :
  getitem l 0 = Ok a -> exists rest, l = a :: rest.
Proof.
  destruct l as [|x rest]; [discriminate|].
  unfold getitem. cbn. intros [= ->]. now exists rest.
Qed.

(** What a [try] block of the PDF extractor that returned went through. *)
Lemma pdf_try_returned (env : Env) (p : str) (d : dict) :
  pdf_try env p = Ok d ->
  exists pdf info page rest page_text,
    open_PdfReader env p = Ok pdf /\
    pdf_metadata pdf = Ok info /\
    pdf_pages pdf = Ok (page :: rest) /\
    extract_text page = Ok page_text /\
    d = dict_set
          (dict_set (pdf_info_loop info) (lit "page_count")
                    (VInt (Z.of_nat (List.length (page :: rest)))))
          (lit "first_page_preview") (VStr (slice_to page_text 200)).
Proof.
  unfold pdf_try. cbn zeta.
  destruct (open_PdfReader env p) as [pdf|] eqn:Hopen; cbn [bind]; [|discriminate].
  destruct (pdf_metadata pdf) as [info|] eqn:Hinfo; cbn [bind]; [|discriminate].
  destruct (pdf_pages pdf) as [pages|] eqn:Hpages; cbn [bind]; [|discriminate].
  destruct (getitem pages 0) as [page|] eqn:Hpage; cbn [bind]; [|discriminate].
  destruct (extract_text page) as [page_text|] eqn:Htext; cbn [bind]; [|discriminate].
  intros [= <-].
  destruct (getitem_first _ Hpage) as [rest ->].
  exists pdf, info, page, rest, page_text. repeat split; assumption.
Qed.

(** X6.  A PDF extraction that succeeds reports at least one page and a
    preview of at most 200 characters taken from the start of the first
    page, and no document-information entry can replace either value. *)
Theorem pdf_success_fields (env : Env) (p : str) (d : dict) :
  pdf_try env p = Ok d ->
  exists pdf pages first_page page_text,
    open_PdfReader env p = Ok pdf /\
    pdf_pages pdf = Ok pages /\
    nth_error pages 0 = Some first_page /\
    extract_text first_page = Ok page_text /\
    1 <= Z.of_nat (List.length pages) /\
    dict_get d (lit "page_count") = Some (VInt (Z.of_nat (List.length pages))) /\
    dict_get d (lit "first_page_preview") = Some (VStr (firstn 200 page_text)) /\
    (List.length (firstn 200 page_text) <= 200)%nat.
Proof.
  intros H.
  destruct (pdf_try_returned _ _ H)
    as (pdf & info & page & rest & page_text & Ho & _ & Hp & Ht & ->).
  exists pdf, (page :: rest), page, page_text.
  repeat split; try assumption.
  - simpl List.length. lia.
  - rewrite dict_get_set_other by lit_neq. apply dict_get_set_same.
  - apply dict_get_set_same.
  - apply firstn_le_length.
Qed.

(** A two-page PDF whose document information has entries named like the
    keys that the extractor itself writes. *)
Definition sample_pdf : PdfReader := {|
  pdf_metadata := Ok (Some [ (lit "/Title", ObjStr (lit "Minutes"));
                             (lit "/error", ObjStr (lit "none"));
                             (lit "/page_count", ObjInt 99) ]);
  pdf_pages := Ok [ {| extract_text := Ok (lit "Minutes of the meeting") |};
                    {| extract_text := Ok (lit "Annex") |} ]
|}.

Definition sample_pdf_env : Env := {|
  unicode_lower := fun s => s;
  open_PdfReader := fun _ => Ok sample_pdf;
  open_Document := fun _ => Raise FileNotFoundError;
  load_workbook := fun _ => Raise FileNotFoundError;
  open_Presentation := fun _ => Raise FileNotFoundError;
  Image_open := fun _ => Raise FileNotFoundError;
  TAGS := fun _ => None;
  message_from_file := fun _ => Raise FileNotFoundError;
  open_csv_reader := fun _ => Raise FileNotFoundError
|}.

Definition sample_pdf_result : dict :=
  [ (lit "Title", VStr (lit "Minutes"));
    (lit "error", VStr (lit "none"));
    (lit "page_count", VInt 2);
    (lit "first_page_preview", VStr (lit "Minutes of the meeting")) ].

Example sample_pdf_extracted :
  pdf_try sample_pdf_env (lit "minutes.pdf") = Ok sample_pdf_result.
Proof. reflexivity. Qed.

Lemma pdf_success_fields_witness :
  dict_get sample_pdf_result (lit "page_count") = Some (VInt 2).
Proof.
  destruct (@pdf_success_fields sample_pdf_env (lit "minutes.pdf") sample_pdf_result
              sample_pdf_extracted)
    as (pdf & pages & first_page & page_text & Ho & Hp & _ & _ & _ & Hcount & _).
  injection Ho as <-. injection Hp as <-. exact Hcount.
Defined.

Lemma keys_grow {A} (step : dict -> A -> dict) (key_of : A -> str) (value_of : A -> value)
    (l : list A) (d : dict) (x : str) :
  (forall d a, step d a = dict_set d (key_of a) (value_of a)) ->
  In x (map fst d) -> In x (map fst (fold_left step l d)).
Proof.
  intros Hstep. apply (fold_left_invariant (fun s => In x (map fst s))).
  intros s a Hs. rewrite Hstep, dict_set_keys. now right.
Qed.

Lemma keys_of_loop {A} (step : dict -> A -> dict) (key_of : A -> str) (value_of : A -> value)
    (l : list A) (d : dict) (a : A) :
  (forall d a, step d a = dict_set d (key_of a) (value_of a)) ->
  In a l -> In (key_of a) (map fst (fold_left step l d)).
Proof.
  intros Hstep. revert d. induction l as [|b l IH]; intros d Hin; [contradiction|].
  destruct Hin as [->|Hin]; simpl.
  - apply keys_grow with (key_of := key_of) (value_of := value_of); [exact Hstep|].
    rewrite Hstep, dict_set_keys. now left.
  - now apply IH.
Qed.

Lemma pdf_info_loop_keys (entries : list (str * pyobj)) (k : str) (v : pyobj) :
  In (k, v) entries -> In (clean_key k) (map fst (pdf_info_loop (Some entries))).
Proof.
  intros Hin. destruct entries as [|entry entries]; [contradiction|].
  unfold pdf_info_loop.
  apply keys_of_loop with (key_of := fun kv : str * pyobj => clean_key (fst kv))
                          (value_of := fun kv : str * pyobj => VStr (py_str (snd kv)))
                          (a := (k, v));
    [|exact Hin].
  now intros d [key w].
Qed.

(** X7.  In a PDF extraction that succeeds, every document-information
    entry is a key of the result, without its leading slash.  The result is
    never the one-key error mapping, so an entry named [/error] gives a
    successful result that carries the key [error]. *)
Theorem pdf_info_keys (env : Env) (p : str) (d : dict) :
  pdf_try env p = Ok d ->
  (forall message, d <> error_result message) /\
  (forall pdf entries k v,
      open_PdfReader env p = Ok pdf ->
      pdf_metadata pdf = Ok (Some entries) ->
      In (k, v) entries ->
      dict_get d (clean_key k) <> None).
Proof.
  intros H.
  destruct (pdf_try_returned _ _ H)
    as (pdf & info & page & rest & page_text & Ho & Hi & _ & _ & ->).
  split.
  - intros message E.
    apply (f_equal (fun m => dict_get m (lit "page_count"))) in E.
    rewrite dict_get_set_other, dict_get_set_same in E by lit_neq.
    vm_compute in E. discriminate E.
  - intros pdf' entries k v Ho' Hi' Hin.
    rewrite Ho in Ho'. injection Ho' as <-.
    rewrite Hi in Hi'. injection Hi' as ->.
    apply dict_get_key. rewrite !dict_set_keys. right. right.
    now apply (pdf_info_loop_keys _ _ v).
Qed.

Lemma pdf_info_keys_witness :
  dict_get sample_pdf_result (lit "error") <> None /\
  sample_pdf_result <> error_result (lit "none").
Proof.
  destruct (@pdf_info_keys sample_pdf_env (lit "minutes.pdf") sample_pdf_result
              sample_pdf_extracted) as [Hnot Hkeys].
  split; [|apply Hnot].
  apply (Hkeys sample_pdf _ (lit "/error") (ObjStr (lit "none")) eq_refl eq_refl).
  simpl. tauto.
Defined.

(** ** The image extractor *)

(** The key of an EXIF entry: the name of the tag, or its number when
    [TAGS] has no name for it. *)
Definition exif_key (env : Env) (tag_id : Z) : str :=
  lit "exif_" ++ match TAGS env tag_id with
                 | Some name => name
                 | None => str_int tag_id
                 end.

Definition image_basic_fields (img : Image) : dict :=
  [ (lit "format", opt_value (format img));
    (lit "size", VStr (str_int (width img) ++ lit "x" ++ str_int (height img)));
    (lit "mode", VStr (mode img)) ].

Definition exif_loop (env : Env) (exif_data : option (list (Z * pyobj))) (d : dict) : dict :=
  match exif_data with
  | Some ((_ :: _) as entries) =>
      fold_left
        (fun (metadata : dict) (kv : Z * pyobj) =>
           let (tag_id, v) := kv in
           dict_set metadata (exif_key env tag_id) (VStr (py_str v)))
        entries d
  | _ => d
  end.

Lemma image_try_returned (env : Env) (p : str) (d : dict) :
  image_try env p = Ok d ->
  exists img exif_data,
    Image_open env p = Ok img /\
    _getexif img = Ok exif_data /\
    d = exif_loop env exif_data (image_basic_fields img).
Proof.
  unfold image_try. cbn zeta.
  destruct (Image_open env p) as [img|] eqn:Hopen; cbn [bind]; [|discriminate].
  destruct (_getexif img) as [exif_data|] eqn:Hexif; cbn [bind]; [|discriminate].
  intros [= <-]. exists img, exif_data. repeat split; assumption.
Qed.

(** What the loop over the EXIF entries keeps: the three basic fields, and
    that every other key starts with [exif_]. *)
Definition image_keys_ok (img : Image) (d : dict) : Prop :=
  dict_get d (lit "format") = Some (opt_value (format img)) /\
  dict_get d (lit "size")
  = Some (VStr (str_int (width img) ++ lit "x" ++ str_int (height img))) /\
  dict_get d (lit "mode") = Some (VStr (mode img)) /\
  (forall k, In k (map fst d) ->
             k = lit "format" \/ k = lit "size" \/ k = lit "mode" \/
             startswith k (lit "exif_") = true).

Lemma exif_loop_keeps (env : Env) (img : Image) (exif_data : option (list (Z * pyobj))) :
  image_keys_ok img (exif_loop env exif_data (image_basic_fields img)).
Proof.
  assert (Hbase : image_keys_ok img (image_basic_fields img)).
  { repeat split. simpl. intros k Hk. decompose [or] Hk; subst; tauto. }
  destruct exif_data as [[|entry entries]|]; try exact Hbase.
  unfold exif_loop. apply fold_left_invariant; [|exact Hbase].
  intros s [tag_id v] (Hf & Hs & Hm & Hkeys). unfold exif_key.
  repeat split.
  - rewrite dict_get_set_other by lit_neq. exact Hf.
  - rewrite dict_get_set_other by lit_neq. exact Hs.
  - rewrite dict_get_set_other by lit_neq. exact Hm.
  - intros k Hk. apply dict_set_keys in Hk as [->|Hk]; [|now apply Hkeys].
    do 3 right. apply startswith_app.
Qed.

(** X8.  In an image extraction that succeeds, [format], [size] and [mode]
    are the values of the opened image whatever the EXIF block holds, and
    every other key of the result starts with [exif_]. *)
Theorem image_fields_kept (env : Env) (p : str) (d : dict) :
  image_try env p = Ok d ->
  exists img,
    Image_open env p = Ok img /\
    dict_get d (lit "format") = Some (opt_value (format img)) /\
    dict_get d (lit "size")
    = Some (VStr (str_int (width img) ++ lit "x" ++ str_int (height img))) /\
    dict_get d (lit "mode") = Some (VStr (mode img)) /\
    (forall k, dict_get d k <> None ->
               k = lit "format" \/ k = lit "size" \/ k = lit "mode" \/
               startswith k (lit "exif_") = true).
Proof.
  intros H. destruct (image_try_returned _ _ H) as (img & exif_data & Ho & _ & ->).
  destruct (exif_loop_keeps env img exif_data) as (Hf & Hs & Hm & Hkeys).
  exists img. repeat split; try assumption.
  intros k Hk. apply Hkeys. now apply dict_get_key.
Qed.

(** A photograph whose EXIF block has a named tag and an unnamed one. *)
Definition sample_image : Image := {|
  format := Some (lit "JPEG");
  width := 640;
  height := 480;
  mode := lit "RGB";
  _getexif := Ok (Some [ (271, ObjStr (lit "ACME")); (50000, ObjInt 7) ])
|}.

Definition sample_image_env : Env := {|
  unicode_lower := fun s => s;
  open_PdfReader := fun _ => Raise FileNotFoundError;
  open_Document := fun _ => Raise FileNotFoundError;
  load_workbook := fun _ => Raise FileNotFoundError;
  open_Presentation := fun _ => Raise FileNotFoundError;
  Image_open := fun _ => Ok sample_image;
  TAGS := fun tag_id => if tag_id =? 271 then Some (lit "Make") else None;
  message_from_file := fun _ => Raise FileNotFoundError;
  open_csv_reader := fun _ => Raise FileNotFoundError
|}.

Definition sample_image_result : dict :=
  [ (lit "format", VStr (lit "JPEG"));
    (lit "size", VStr (lit "640x480"));
    (lit "mode", VStr (lit "RGB"));
    (lit "exif_Make", VStr (lit "ACME"));
    (lit "exif_50000", VStr (lit "7")) ].

Example sample_image_extracted :
  image_try sample_image_env (lit "photo.jpg") = Ok sample_image_result.
Proof. reflexivity. Qed.

Lemma image_fields_kept_witness :
  dict_get sample_image_result (lit "size") = Some (VStr (lit "640x480")).
Proof.
  destruct (@image_fields_kept sample_image_env (lit "photo.jpg") sample_image_result
              sample_image_extracted)
    as (img & Ho & _ & Hs & _).
  injection Ho as <-. exact Hs.
Defined.

(** ** The Word, Excel, PowerPoint, email and CSV extractors *)

Definition docx_fields (doc : Document) : dict :=
  [ (lit "author", VStr (author (doc_core_properties doc)));
    (lit "created", VStr (py_str (created (doc_core_properties doc))));
    (lit "last_modified_by", VStr (last_modified_by (doc_core_properties doc)));
    (lit "modified", VStr (py_str (modified (doc_core_properties doc))));
    (lit "title", VStr (title (doc_core_properties doc)));
    (lit "paragraph_count", VInt (Z.of_nat (List.length (paragraphs doc))));
    (lit "text_preview",
     VStr (match paragraphs doc with
           | [] => lit ""
           | first_paragraph :: _ => firstn 200 (text first_paragraph)
           end)) ].

(** X9.  Once the document is open the Word extractor cannot fail: it
    returns the seven fields, with the number of paragraphs and, as preview,
    the first 200 characters of the first paragraph, or the empty string
    when there is none. *)
Theorem docx_opened (env : Env) (p : str) (doc : Document) :
  open_Document env p = Ok doc ->
  extract_docx_metadata env p = Ok (docx_fields doc).
Proof.
  intros Hopen. unfold extract_docx_metadata, docx_try, docx_fields.
  rewrite Hopen. cbn [bind].
  destruct (paragraphs doc) as [|first_paragraph rest]; reflexivity.
Qed.

Definition sample_document : Document := {|
  doc_core_properties :=
    {| author := lit "Ada"; created := ObjNone; last_modified_by := lit "";
       modified := ObjOther (lit "2024-05-01 09:00:00"); title := lit "Plan" |};
  paragraphs := [ {| text := lit "First paragraph." |}; {| text := lit "" |} ]
|}.

Definition sample_docx_env : Env := {|
  unicode_lower := fun s => s;
  open_PdfReader := fun _ => Raise FileNotFoundError;
  open_Document := fun _ => Ok sample_document;
  load_workbook := fun _ => Raise FileNotFoundError;
  open_Presentation := fun _ => Raise FileNotFoundError;
  Image_open := fun _ => Raise FileNotFoundError;
  TAGS := fun _ => None;
  message_from_file := fun _ => Raise FileNotFoundError;
  open_csv_reader := fun _ => Raise FileNotFoundError
|}.

Lemma docx_opened_witness :
  extract_docx_metadata sample_docx_env (lit "plan.docx")
  = Ok [ (lit "author", VStr (lit "Ada"));
         (lit "created", VStr (lit "None"));
         (lit "last_modified_by", VStr (lit ""));
         (lit "modified", VStr (lit "2024-05-01 09:00:00"));
         (lit "title", VStr (lit "Plan"));
         (lit "paragraph_count", VInt 2);
         (lit "text_preview", VStr (lit "First paragraph.")) ].
Proof.
  exact (@docx_opened sample_docx_env (lit "plan.docx") sample_document eq_refl).
Defined.

Definition xlsx_fields (workbook : Workbook) : dict :=
  [ (lit "sheet_names", VList (map VStr (sheetnames workbook)));
    (lit "sheet_count", VInt (Z.of_nat (List.length (sheetnames workbook))));
    (lit "creator", opt_value (creator (properties workbook)));
    (lit "created", VStr (py_str (wb_created (properties workbook))));
    (lit "modified", VStr (py_str (wb_modified (properties workbook))));
    (lit "last_modified_by", opt_value (lastModifiedBy (properties workbook))) ].

Lemma xlsx_opened (env : Env) (p : str) (workbook : Workbook) :
  load_workbook env p = Ok workbook ->
  xlsx_try env p = Ok (xlsx_fields workbook).
Proof. intros Hopen. unfold xlsx_try. now rewrite Hopen. Qed.

Definition pptx_fields (presentation : Presentation) : dict :=
  [ (lit "slide_count", VInt (Z.of_nat (List.length (slides presentation))));
    (lit "author", VStr (author (prs_core_properties presentation)));
    (lit "created", VStr (py_str (created (prs_core_properties presentation))));
    (lit "modified", VStr (py_str (modified (prs_core_properties presentation))));
    (lit "title", VStr (title (prs_core_properties presentation))) ].

Lemma pptx_opened (env : Env) (p : str) (presentation : Presentation) :
  open_Presentation env p = Ok presentation ->
  pptx_try env p = Ok (pptx_fields presentation).
Proof. intros Hopen. unfold pptx_try. now rewrite Hopen. Qed.

(** A part counts when its content disposition is ["attachment"]. *)
Definition is_attachment (part : Part) : bool :=
  match get_content_disposition part with
  | Some d => str_eqb d (lit "attachment")
  | None => false
  end.

Lemma attachment_loop (parts : list Part) (count : Z) :
  fold_left
    (fun (attachment_count : Z) (part : Part) =>
       match get_content_disposition part with
       | Some d => if str_eqb d (lit "attachment")
                   then attachment_count + 1 else attachment_count
       | None => attachment_count
       end)
    parts count
  = count + Z.of_nat (List.length (filter is_attachment parts)).
Proof.
  revert count. induction parts as [|part parts IH]; intros count; simpl; [lia|].
  rewrite IH. unfold is_attachment.
  destruct (get_content_disposition part) as [d|]; [|lia].
  destruct (str_eqb d (lit "attachment")); simpl List.length; lia.
Qed.

Definition email_fields (msg : Message) : dict :=
  [ (lit "subject", VStr (header_or_empty msg (lit "Subject")));
    (lit "from", VStr (header_or_empty msg (lit "From")));
    (lit "to", VStr (header_or_empty msg (lit "To")));
    (lit "date", VStr (header_or_empty msg (lit "Date")));
    (lit "cc", VStr (header_or_empty msg (lit "Cc")));
    (lit "attachment_count",
     VInt (Z.of_nat (List.length (filter is_attachment (walk msg))))) ].

(** X10.  Once the message is parsed the email extractor cannot fail: a
    header that is missing is stored as the empty string, and
    [attachment_count] is the number of parts of the message whose content
    disposition is ["attachment"], between 0 and the number of parts. *)
Theorem email_parsed (env : Env) (p : str) (msg : Message) :
  message_from_file env p = Ok msg ->
  extract_email_metadata env p = Ok (email_fields msg) /\
  0 <= Z.of_nat (List.length (filter is_attachment (walk msg)))
    <= Z.of_nat (List.length (walk msg)).
Proof.
  intros Hopen. split.
  - unfold extract_email_metadata, email_try. rewrite Hopen. cbn [bind].
    cbn zeta. rewrite attachment_loop. reflexivity.
  - pose proof (filter_length_le is_attachment (walk msg)). lia.
Qed.

Definition sample_message : Message := {|
  msg_get := fun name =>
    if str_eqb name (lit "Subject") then Some (lit "Invoice") else None;
  walk := [ {| get_content_disposition := None |};
            {| get_content_disposition := Some (lit "inline") |};
            {| get_content_disposition := Some (lit "attachment") |};
            {| get_content_disposition := Some (lit "attachment") |} ]
|}.

Definition sample_email_env : Env := {|
  unicode_lower := fun s => s;
  open_PdfReader := fun _ => Raise FileNotFoundError;
  open_Document := fun _ => Raise FileNotFoundError;
  load_workbook := fun _ => Raise FileNotFoundError;
  open_Presentation := fun _ => Raise FileNotFoundError;
  Image_open := fun _ => Raise FileNotFoundError;
  TAGS := fun _ => None;
  message_from_file := fun _ => Ok sample_message;
  open_csv_reader := fun _ => Raise FileNotFoundError
|}.

Lemma email_parsed_witness :
  extract_email_metadata sample_email_env (lit "invoice.eml")
  = Ok [ (lit "subject", VStr (lit "Invoice"));
         (lit "from", VStr (lit ""));
         (lit "to", VStr (lit ""));
         (lit "date", VStr (lit ""));
         (lit "cc", VStr (lit ""));
         (lit "attachment_count", VInt 2) ].
Proof.
  exact (proj1 (@email_parsed sample_email_env (lit "invoice.eml") sample_message eq_refl)).
Defined.

(** X11.  A CSV reader that yields a first row and then [n] more rows
    without failing gives the length of the first row as [column_count], the
    first row as [column_names] and [n] as [row_count]; an empty first row
    gives zero columns. *)
Theorem csv_counts (env : Env) (p : str) (header : list str) (rest : list (list str)) :
  open_csv_reader env p = Ok {| csv_rows := header :: rest; csv_failure := None |} ->
  extract_csv_metadata env p
  = Ok [ (lit "column_count", VInt (Z.of_nat (List.length header)));
         (lit "column_names", VList (map VStr header));
         (lit "row_count", VInt (Z.of_nat (List.length rest))) ].
Proof.
  intros Hopen. unfold extract_csv_metadata, csv_try. rewrite Hopen.
  destruct header as [|name names]; reflexivity.
Qed.

Definition sample_header_only_env : Env := {|
  unicode_lower := fun s => s;
  open_PdfReader := fun _ => Raise FileNotFoundError;
  open_Document := fun _ => Raise FileNotFoundError;
  load_workbook := fun _ => Raise FileNotFoundError;
  open_Presentation := fun _ => Raise FileNotFoundError;
  Image_open := fun _ => Raise FileNotFoundError;
  TAGS := fun _ => None;
  message_from_file := fun _ => Raise FileNotFoundError;
  open_csv_reader := fun _ =>
    Ok {| csv_rows := [ [lit "id"; lit "name"] ]; csv_failure := None |}
|}.

Lemma csv_counts_witness :
  extract_csv_metadata sample_header_only_env (lit "people.csv")
  = Ok [ (lit "column_count", VInt 2);
         (lit "column_names", VList [VStr (lit "id"); VStr (lit "name")]);
         (lit "row_count", VInt 0) ].
Proof.
  exact (@csv_counts sample_header_only_env (lit "people.csv")
           [lit "id"; lit "name"] [] eq_refl).
Defined.

(** X12.  A CSV reader that fails before its end, however many rows it
    yields first, gives the error result and no partial counts. *)
Theorem csv_reader_fails (env : Env) (p : str) (reader : csv_reader) (e : exn) :
  open_csv_reader env p = Ok reader ->
  csv_failure reader = Some e ->
  extract_csv_metadata env p
  = Ok (error_result (lit "Failed to extract CSV metadata: " ++ exn_str e)).
Proof.
  intros Hopen Hfail. unfold extract_csv_metadata, csv_try. rewrite Hopen.
  cbn [bind]. unfold next_or_None.
  destruct (csv_rows reader) as [|row rows].
  - rewrite Hfail. reflexivity.
  - cbn [bind]. unfold count_remaining. cbn [csv_failure]. rewrite Hfail. reflexivity.
Qed.

Definition UnicodeDecodeError : exn :=
  mkExn (lit "UnicodeDecodeError") (lit "invalid start byte").

Definition sample_broken_csv : csv_reader :=
  {| csv_rows := [ [lit "id"; lit "name"]; [lit "1"; lit "Ada"] ];
     csv_failure := Some UnicodeDecodeError |}.

Definition sample_broken_csv_env : Env := {|
  unicode_lower := fun s => s;
  open_PdfReader := fun _ => Raise FileNotFoundError;
  open_Document := fun _ => Raise FileNotFoundError;
  load_workbook := fun _ => Raise FileNotFoundError;
  open_Presentation := fun _ => Raise FileNotFoundError;
  Image_open := fun _ => Raise FileNotFoundError;
  TAGS := fun _ => None;
  message_from_file := fun _ => Raise FileNotFoundError;
  open_csv_reader := fun _ => Ok sample_broken_csv
|}.

Lemma csv_reader_fails_witness :
  extract_csv_metadata sample_broken_csv_env (lit "people.csv")
  = Ok (error_result (lit "Failed to extract CSV metadata: invalid start byte")).
Proof.
  exact (@csv_reader_fails sample_broken_csv_env (lit "people.csv")
           sample_broken_csv UnicodeDecodeError eq_refl eq_refl).
Defined.

(** ** What every result looks like *)

Ltac distinct_literal_keys :=
  unfold wf_dict; cbn [map fst];
  repeat (constructor;
          [let H := fresh "H" in
           intros H; vm_compute in H; decompose [or] H; try discriminate; contradiction |]);
  constructor.

Lemma docx_try_opened (env : Env) (p : str) (d : dict) :
  docx_try env p = Ok d -> exists doc, d = docx_fields doc.
Proof.
  unfold docx_try. cbn zeta.
  destruct (open_Document env p) as [doc|]; cbn [bind]; [|discriminate].
  intros H. exists doc.
  destruct (paragraphs doc) as [|first_paragraph rest] eqn:Hp;
    cbn in H; injection H as <-; unfold docx_fields; rewrite Hp; reflexivity.
Qed.

Lemma xlsx_try_opened (env : Env) (p : str) (d : dict) :
  xlsx_try env p = Ok d -> exists workbook, d = xlsx_fields workbook.
Proof.
  unfold xlsx_try. cbn zeta.
  destruct (load_workbook env p) as [workbook|]; cbn [bind]; [|discriminate].
  intros [= <-]. now exists workbook.
Qed.

Lemma pptx_try_opened (env : Env) (p : str) (d : dict) :
  pptx_try env p = Ok d -> exists presentation, d = pptx_fields presentation.
Proof.
  unfold pptx_try. cbn zeta.
  destruct (open_Presentation env p) as [presentation|]; cbn [bind]; [|discriminate].
  intros [= <-]. now exists presentation.
Qed.

Lemma email_try_opened (env : Env) (p : str) (d : dict) :
  email_try env p = Ok d -> exists msg, d = email_fields msg.
Proof.
  unfold email_try. cbn zeta.
  destruct (message_from_file env p) as [msg|]; cbn [bind]; [|discriminate].
  rewrite attachment_loop. intros [= <-]. now exists msg.
Qed.

Definition csv_fields (column_count : Z) (column_names : list value) (row_count : Z) : dict :=
  [ (lit "column_count", VInt column_count);
    (lit "column_names", VList column_names);
    (lit "row_count", VInt row_count) ].

Lemma csv_try_opened (env : Env) (p : str) (d : dict) :
  csv_try env p = Ok d ->
  exists column_count column_names row_count,
    d = csv_fields column_count column_names row_count.
Proof.
  unfold csv_try. cbn zeta.
  destruct (open_csv_reader env p) as [reader|]; cbn [bind]; [|discriminate].
  destruct (next_or_None reader) as [[headers reader']|]; cbn [bind]; [|discriminate].
  destruct (count_remaining reader') as [row_count|]; cbn [bind]; [|discriminate].
  intros [= <-]. do 3 eexists. reflexivity.
Qed.

(** The [try] blocks other than the PDF one never write the key [error]. *)
Lemma try_blocks_without_error_key (env : Env) (p : str) (d : dict) :
  docx_try env p = Ok d \/ xlsx_try env p = Ok d \/ pptx_try env p = Ok d \/
  image_try env p = Ok d \/ email_try env p = Ok d \/ csv_try env p = Ok d ->
  dict_get d (lit "error") = None.
Proof.
  intros [H|[H|[H|[H|[H|H]]]]].
  - apply docx_try_opened in H as [doc ->]. reflexivity.
  - apply xlsx_try_opened in H as [workbook ->]. reflexivity.
  - apply pptx_try_opened in H as [presentation ->]. reflexivity.
  - apply image_try_returned in H as (img & exif_data & _ & _ & ->).
    destruct (exif_loop_keeps env img exif_data) as (_ & _ & _ & Hkeys).
    match goal with |- ?g = None => destruct g as [v|] eqn:E end; [|reflexivity].
    exfalso. destruct (Hkeys (lit "error")) as [K|[K|[K|K]]];
      [apply dict_get_key; rewrite E; discriminate | | | | ];
      vm_compute in K; discriminate K.
  - apply email_try_opened in H as [msg ->]. reflexivity.
  - apply csv_try_opened in H as (n & names & rows & ->). reflexivity.
Qed.

(** X13.  For every file that is not dispatched to the PDF extractor the
    key [error] is a reliable sentinel: a result that has it is the one-key
    error mapping. *)
Theorem error_key_means_failure (env : Env) (p : str) (d : dict) :
  lower env (snd (splitext p)) <> lit ".pdf" ->
  extract_metadata env p = Ok d ->
  dict_get d (lit "error") <> None ->
  exists message, d = error_result message.
Proof.
  intros Hnotpdf Hres Hkey.
  destruct (handler_of (supported_extensions env) (lower env (snd (splitext p))))
    as [h|] eqn:Hh.
  2:{ rewrite (extract_metadata_unsupported _ _ Hh) in Hres. injection Hres as <-. eauto. }
  rewrite (extract_metadata_dispatch _ _ eq_refl Hh) in Hres.
  apply handler_of_keys in Hh.
  assert (Hblock : forall block message,
             try_except block (fun e => Ok (error_result (message ++ exn_str e))) = Ok d ->
             (forall d', block = Ok d' -> dict_get d' (lit "error") = None) ->
             exists message, d = error_result message).
  { intros [d'|e] message Hd Hnone; simpl in Hd; injection Hd as <-; [|eauto].
    exfalso. apply Hkey. now apply Hnone. }
  decompose [or and] Hh; subst h; try contradiction;
    unfold extract_docx_metadata, extract_xlsx_metadata, extract_pptx_metadata,
      extract_image_metadata, extract_email_metadata, extract_csv_metadata in Hres;
    (eapply Hblock; [exact Hres|]);
    intros d' Hd'; apply (@try_blocks_without_error_key env p); tauto.
Qed.

Lemma error_key_means_failure_witness :
  exists message,
    error_result (lit "Failed to extract CSV metadata: invalid start byte")
    = error_result message.
Proof.
  apply (@error_key_means_failure sample_broken_csv_env (lit "people.csv")).
  - vm_compute. discriminate.
  - reflexivity.
  - vm_compute. discriminate.
Defined.

Lemma pdf_info_loop_wf (info : option (list (str * pyobj))) : wf_dict (pdf_info_loop info).
Proof.
  destruct info as [[|entry entries]|]; try constructor.
  unfold pdf_info_loop. apply fold_left_invariant; [|constructor].
  intros s [key v] Hs. now apply dict_set_wf.
Qed.

Lemma exif_loop_wf (env : Env) (exif_data : option (list (Z * pyobj))) (d : dict) :
  wf_dict d -> wf_dict (exif_loop env exif_data d).
Proof.
  intros Hd. destruct exif_data as [[|entry entries]|]; try exact Hd.
  unfold exif_loop. apply fold_left_invariant; [|exact Hd].
  intros s [tag_id v] Hs. now apply dict_set_wf.
Qed.

(** The mapping that a [try] block returns has distinct keys and at least
    one of them. *)
Lemma try_block_shape (env : Env) (p : str) (d : dict) :
  pdf_try env p = Ok d \/
  docx_try env p = Ok d \/ xlsx_try env p = Ok d \/ pptx_try env p = Ok d \/
  image_try env p = Ok d \/ email_try env p = Ok d \/ csv_try env p = Ok d ->
  wf_dict d /\ d <> [].
Proof.
  intros [H|[H|[H|[H|[H|[H|H]]]]]].
  - apply pdf_try_returned in H as (pdf & info & page & rest & page_text & _ & _ & _ & _ & ->).
    split; [|apply dict_set_nonempty].
    do 2 apply dict_set_wf. apply pdf_info_loop_wf.
  - apply docx_try_opened in H as [doc ->]. split; [distinct_literal_keys | discriminate].
  - apply xlsx_try_opened in H as [workbook ->]. split; [distinct_literal_keys | discriminate].
  - apply pptx_try_opened in H as [presentation ->].
    split; [distinct_literal_keys | discriminate].
  - apply image_try_returned in H as (img & exif_data & _ & _ & ->). split.
    + apply exif_loop_wf. distinct_literal_keys.
    + destruct (exif_loop_keeps env img exif_data) as (Hf & _).
      intros E. rewrite E in Hf. discriminate Hf.
  - apply email_try_opened in H as [msg ->]. split; [distinct_literal_keys | discriminate].
  - apply csv_try_opened in H as (n & names & rows & ->).
    split; [distinct_literal_keys | discriminate].
Qed.

Lemma extract_metadata_shape (env : Env) (p : str) :
  exists d, extract_metadata env p = Ok d /\ wf_dict d /\ d <> [].
Proof.
  destruct (handler_of (supported_extensions env) (lower env (snd (splitext p))))
    as [h|] eqn:Hh.
  2:{ rewrite (extract_metadata_unsupported _ _ Hh). eexists. split; [reflexivity|].
      split; [repeat constructor; intros [] | discriminate]. }
  rewrite (extract_metadata_dispatch _ _ eq_refl Hh).
  apply handler_of_keys in Hh.
  assert (Hblock : forall block message,
             (forall d', block = Ok d' -> wf_dict d' /\ d' <> []) ->
             exists d,
               try_except block (fun e => Ok (error_result (message ++ exn_str e))) = Ok d /\
               wf_dict d /\ d <> []).
  { intros [d'|e] message Hshape; simpl; eexists; (split; [reflexivity|]).
    - now apply Hshape.
    - split; [repeat constructor; intros [] | discriminate]. }
  decompose [or and] Hh; subst h;
    apply Hblock; intros d' Hd'; apply (@try_block_shape env p); tauto.
Qed.

(** X14.  Whatever the path, [extract_metadata] returns a mapping that is
    not empty and has no key twice; so the guard of the save button, which
    refuses an empty mapping, never refuses the result of an extraction. *)
Theorem extract_metadata_result_shape (env : Env) (p : str) :
  exists d, extract_metadata env p = Ok d /\ wf_dict d /\ d <> [].
Proof. apply extract_metadata_shape. Qed.

(** ** The serialised text *)

(** A printable ASCII character, from the space to the tilde. *)
Definition printable (c : N) : bool := ((32 <=? c) && (c <=? 126))%N.

Definition all_printable (s : str) : bool := forallb printable s.

Lemma all_printable_app (a b : str) :
  all_printable (a ++ b) = all_printable a && all_printable b.
Proof. apply forallb_app. Qed.

Lemma hex_digit_printable (n : Z) : printable (hex_digit n) = true.
Proof.
  pose proof (hex_digit_cases n) as H.
  remember (hex_digit n) as d eqn:Hd. clear Hd. vm_compute in H.
  decompose [or] H; try contradiction; subst d; reflexivity.
Qed.

Lemma escape_char_printable (c : N) : all_printable (escape_char c) = true.
Proof.
  unfold escape_char.
  repeat match goal with
         | |- context [if ?b then _ else _] => destruct b eqn:?
         end;
    unfold hex4, all_printable; cbn [forallb app lit map list_ascii_of_string];
    rewrite ?forallb_app; cbn [forallb];
    rewrite ?hex_digit_printable; try reflexivity.
  unfold printable. now rewrite Heqb1.
Qed.

Lemma flat_map_printable {A} (f : A -> str) (l : list A) :
  (forall x, In x l -> all_printable (f x) = true) -> all_printable (flat_map f l) = true.
Proof.
  induction l as [|x l IH]; intros H; simpl; [reflexivity|].
  rewrite all_printable_app, H, IH; auto with datatypes.
Qed.

Lemma encode_basestring_ascii_printable (s : str) :
  all_printable (encode_basestring_ascii s) = true.
Proof.
  unfold encode_basestring_ascii.
  change (all_printable (quote :: flat_map escape_char s ++ [quote]))
    with (printable quote && all_printable (flat_map escape_char s ++ [quote])).
  rewrite all_printable_app, flat_map_printable; [reflexivity|].
  intros; apply escape_char_printable.
Qed.

Lemma string_of_uint_printable (d : Decimal.uint) :
  all_printable (lit (NilEmpty.string_of_uint d)) = true.
Proof. induction d; simpl; auto. Qed.

Lemma str_int_printable (n : Z) : all_printable (str_int n) = true.
Proof.
  unfold str_int, NilZero.string_of_int, NilZero.string_of_uint.
  destruct (Z.to_int n) as [d|d]; destruct d; try reflexivity;
    try apply (string_of_uint_printable (_ d));
    match goal with
    | |- all_printable (lit (String ?c (NilEmpty.string_of_uint ?u))) = true =>
        change (printable (N_of_ascii c)
                && all_printable (lit (NilEmpty.string_of_uint u)) = true);
        now rewrite string_of_uint_printable
    end.
Qed.

Lemma join_printable (separator : str) (parts : list str) :
  all_printable separator = true ->
  (forall p, In p parts -> all_printable p = true) ->
  all_printable (join separator parts) = true.
Proof.
  intros Hsep. induction parts as [|p parts IH]; intros H; [reflexivity|].
  destruct parts as [|q parts].
  - apply H. now left.
  - change (join separator (p :: q :: parts))
      with (p ++ separator ++ join separator (q :: parts)).
    rewrite !all_printable_app, Hsep, (H p (or_introl eq_refl)), IH; [reflexivity|].
    intros; apply H; now right.
Qed.

Lemma dumps_value_printable (v : value) : all_printable (dumps_value v) = true.
Proof.
  induction v as [| n | s | items IH] using value_ind'.
  - reflexivity.
  - apply str_int_printable.
  - apply encode_basestring_ascii_printable.
  - destruct items as [|x items]; [reflexivity|].
    change (dumps_value (VList (x :: items)))
      with (lit "[" ++ join (lit ", ") (map dumps_value (x :: items)) ++ lit "]").
    rewrite !all_printable_app, join_printable; [reflexivity..|].
    intros p Hp. apply in_map_iff in Hp as [y [<- Hy]].
    rewrite Forall_forall in IH. now apply IH.
Qed.

(** X15.  The text that [json.dumps] produces for a metadata mapping, sorted
    or not, consists of printable ASCII characters only: no control
    character and nothing above the tilde reaches the hash or the
    [metadata_json] column. *)
Theorem dumps_printable (sort_keys : bool) (metadata : dict) :
  forallb printable (dumps sort_keys metadata) = true.
Proof.
  change (all_printable (dumps sort_keys metadata) = true).
  unfold dumps.
  destruct (if sort_keys then sorted metadata else metadata) as [|x items];
    [reflexivity|].
  rewrite !all_printable_app, join_printable; [reflexivity..|].
  intros p Hp. apply in_map_iff in Hp as [y [<- Hy]].
  unfold dumps_item.
  now rewrite !all_printable_app, encode_basestring_ascii_printable, dumps_value_printable.
Qed.

(** ** The digest's padding *)

(** X16.  The padded message starts with the message, is between 9 and 72
    bytes longer, and its length is a multiple of the 64-byte block, so
    [digest] runs the compression over every byte of the message. *)
Theorem pad_blocks (msg : bytes) :
  firstn (List.length msg) (SHA256.pad msg) = msg /\
  Z.of_nat (List.length (SHA256.pad msg)) mod 64 = 0 /\
  Z.of_nat (List.length msg) + 9 <= Z.of_nat (List.length (SHA256.pad msg))
    <= Z.of_nat (List.length msg) + 72.
Proof.
  unfold SHA256.pad. split; [apply firstn_exact|].
  rewrite !length_app, repeat_length, be_bytes_length. simpl List.length.
  set (len := Z.of_nat (List.length msg)).
  assert (Hr : 0 <= (55 - len) mod 64 < 64) by (apply Z.mod_pos_bound; lia).
  pose proof (Z.div_mod (55 - len) 64 ltac:(lia)) as Hdm.
  replace (Z.of_nat (List.length msg + (1 + (Z.to_nat ((55 - len) mod 64) + 8))))
    with (len + 9 + (55 - len) mod 64) by lia.
  split; [|lia].
  replace (len + 9 + (55 - len) mod 64) with ((1 - (55 - len) / 64) * 64) by lia.
  apply Z.mod_mul. lia.
Qed.

(** ** What a save needs to complete *)

(** A lone surrogate, the only code point that UTF-8 cannot carry. *)
Definition is_surrogate (c : N) : bool := ((0xd800 <=? c) && (c <=? 0xdfff))%N.

Definition encodable (s : str) : bool := forallb (fun c => negb (is_surrogate c)) s.

Lemma utf8_char_surrogate (c : N) :
  (exists b, utf8_char c = Ok b) <-> is_surrogate c = false.
Proof.
  unfold utf8_char, is_surrogate.
  destruct (Z.of_N c <? 128) eqn:E1.
  { apply Z.ltb_lt in E1. split; [|eauto]. intros _.
    apply andb_false_iff. left. apply N.leb_gt. lia. }
  destruct (Z.of_N c <? 2048) eqn:E2.
  { apply Z.ltb_lt in E2. split; [|eauto]. intros _.
    apply andb_false_iff. left. apply N.leb_gt. lia. }
  destruct ((55296 <=? Z.of_N c) && (Z.of_N c <=? 57343)) eqn:E3.
  - apply andb_prop in E3 as [Ha Hb]. apply Z.leb_le in Ha, Hb. split.
    + intros [b Hb']. discriminate Hb'.
    + intros H. apply andb_false_iff in H as [H|H]; apply N.leb_gt in H; lia.
  - assert (Hns : ((55296 <=? c) && (c <=? 57343))%N = false).
    { apply andb_false_iff in E3 as [H|H]; apply Z.leb_gt in H;
        apply andb_false_iff; [left | right]; apply N.leb_gt; lia. }
    destruct (Z.of_N c <? 65536); split; eauto.
Qed.

Lemma encode_encodable (s : str) :
  (exists b, encode s = Ok b) <-> encodable s = true.
Proof.
  induction s as [|c s IH]; simpl; [split; eauto|].
  rewrite andb_true_iff, negb_true_iff, <- IH, <- utf8_char_surrogate. split.
  - destruct (utf8_char c) as [b|e]; cbn [bind]; [|intros [? H]; discriminate H].
    destruct (encode s) as [bs|e]; cbn [bind]; [eauto|intros [? H]; discriminate H].
  - intros [[b ->] [bs ->]]. cbn [bind]. eauto.
Qed.

Lemma bind_parameters_encodable (parameters : list str) :
  bind_parameters parameters = Ok tt <->
  Forall (fun parameter => encodable parameter = true) parameters.
Proof.
  induction parameters as [|parameter rest IH]; simpl; [split; auto|].
  split.
  - destruct (encode parameter) as [b|e] eqn:E; cbn [bind]; [|discriminate].
    intros H. constructor; [apply encode_encodable; eauto | now apply IH].
  - intros H. inversion H as [|? ? Hp Hrest]; subst.
    apply encode_encodable in Hp as [b ->]. cbn [bind]. now apply IH.
Qed.

Lemma encodable_basename (p : str) : encodable p = true -> encodable (basename p) = true.
Proof.
  unfold encodable, basename, slice_from. rewrite !forallb_forall.
  intros H c Hc. apply H. eapply In_skipn, Hc.
Qed.

Lemma ascii_encodable (s : str) : all_ascii s = true -> encodable s = true.
Proof.
  unfold all_ascii, encodable. rewrite !forallb_forall. intros H c Hc.
  specialize (H c Hc). unfold is_ascii in H. apply N.ltb_lt in H.
  apply negb_true_iff, andb_false_iff. left. apply N.leb_gt. lia.
Qed.

Lemma hexdigest_encodable (msg : bytes) : encodable (SHA256.hexdigest msg) = true.
Proof.
  pose proof (hexdigest_lower_hex msg) as H.
  unfold encodable. rewrite forallb_forall in *. intros c Hc.
  specialize (H c Hc). unfold is_lower_hex in H.
  apply negb_true_iff, andb_false_iff. left. apply N.leb_gt.
  apply orb_prop in H as [H|H]; apply andb_prop in H as [_ H]; apply N.leb_le in H; lia.
Qed.

(** The five conditions under which the storage layer and the binding of
    the parameters let a save through. *)
Definition save_admitted (io : storage) (now path hash : str) : Prop :=
  connect_error io = None /\ write_error io = None /\
  encodable path = true /\ encodable hash = true /\ encodable now = true.

Lemma save_metadata_admitted (io : storage) (db : database) (now path : str)
    (metadata : dict) (hash : str) (rowid : Z) :
  save_admitted io now path hash ->
  next_rowid db = Ok rowid ->
  save_metadata io db now path metadata hash
  = Ok (mkDatabase
          (document_metadata db ++
             [mkRow rowid path (basename path) hash now (dumps false metadata)])
          rowid, rowid).
Proof.
  intros (Hc & Hw & Hp & Hh & Hn) Hid. unfold save_metadata.
  assert (Hbound : bind_parameters
                     [path; basename path; hash; now; dumps false metadata] = Ok tt).
  { apply bind_parameters_encodable.
    apply Forall_cons; [exact Hp|].
    apply Forall_cons; [now apply encodable_basename|].
    apply Forall_cons; [exact Hh|].
    apply Forall_cons; [exact Hn|].
    apply Forall_cons; [apply ascii_encodable, dumps_ascii | apply Forall_nil]. }
  cbv zeta. rewrite Hc, Hbound, Hw, Hid. reflexivity.
Qed.

Lemma save_metadata_needs (io : storage) (db : database) (now path : str)
    (metadata : dict) (hash : str) (db' : database) (rowid : Z) :
  save_metadata io db now path metadata hash = Ok (db', rowid) ->
  save_admitted io now path hash.
Proof.
  unfold save_metadata, raise_if, save_admitted.
  destruct (connect_error io); cbn [bind]; [discriminate|].
  destruct (bind_parameters _) as [[]|] eqn:Hb; cbn [bind]; [|discriminate].
  destruct (write_error io); cbn [bind]; [discriminate|].
  intros _. apply bind_parameters_encodable in Hb.
  inversion Hb as [|? ? Hp Hb1]; subst. inversion Hb1 as [|? ? _ Hb2]; subst.
  inversion Hb2 as [|? ? Hh Hb3]; subst. inversion Hb3 as [|? ? Hn _]; subst.
  repeat split; assumption.
Qed.

(** ** The database over a session *)

(** The databases that saves can make out of a new file. *)
Inductive saved_from_new : database -> Prop :=
| saved_nothing : saved_from_new create_tables
| saved_more (io : storage) (db db' : database) (now path : str) (metadata : dict)
    (hash : str) (rowid : Z) :
    saved_from_new db ->
    save_metadata io db now path metadata hash = Ok (db', rowid) ->
    saved_from_new db'.

Lemma fold_left_max_bounded (l : list Z) (a : Z) :
  Forall (fun x => x <= a) l -> fold_left Z.max l a = a.
Proof.
  induction 1 as [|x l Hx Hl IH]; simpl; [reflexivity|].
  now replace (Z.max a x) with a by lia.
Qed.

Definition numbered (db : database) : Prop :=
  map id (document_metadata db)
  = map Z.of_nat (seq 1 (List.length (document_metadata db))) /\
  sqlite_sequence db = Z.of_nat (List.length (document_metadata db)).

Lemma next_rowid_numbered (db : database) (rowid : Z) :
  numbered db -> next_rowid db = Ok rowid ->
  rowid = Z.of_nat (List.length (document_metadata db)) + 1.
Proof.
  intros [Hids Hseq]. unfold next_rowid. rewrite Hids, Hseq.
  rewrite fold_left_max_bounded.
  - destruct (max_rowid <=? _); [discriminate|]. now intros [= <-].
  - apply Forall_forall. intros x Hx.
    apply in_map_iff in Hx as (n & <- & Hn). apply in_seq in Hn. lia.
Qed.

Lemma save_keeps_numbered (io : storage) (db db' : database) (now path : str)
    (metadata : dict) (hash : str) (rowid : Z) :
  numbered db ->
  save_metadata io db now path metadata hash = Ok (db', rowid) ->
  numbered db'.
Proof.
  intros Hn Hsave. apply save_metadata_inv in Hsave as [Hid ->].
  pose proof (next_rowid_numbered Hn Hid) as ->.
  destruct Hn as [Hids Hseq]. unfold numbered. cbn [document_metadata sqlite_sequence].
  rewrite length_app. simpl List.length.
  replace (List.length (document_metadata db) + 1)%nat
    with (S (List.length (document_metadata db))) by lia.
  split; [|lia].
  rewrite map_app, Hids, seq_S, map_app. simpl. do 2 f_equal. lia.
Qed.

Lemma saved_from_new_numbered (db : database) : saved_from_new db -> numbered db.
Proof.
  induction 1 as [|io db db' now path metadata hash rowid _ IH Hsave].
  - split; reflexivity.
  - eapply save_keeps_numbered; eassumption.
Qed.

Lemma NoDup_map_of_nat (l : list nat) : NoDup l -> NoDup (map Z.of_nat l).
Proof.
  induction 1 as [|x l Hx Hl IH]; simpl; constructor; [|exact IH].
  intros Hin. apply in_map_iff in Hin as (y & Hy & Hin).
  apply Nat2Z.inj in Hy. now subst y.
Qed.

(** X17.  In a database that started as a new file the ids are 1, 2, 3, ...
    in the order of saving, without gap or repetition, and the id that the
    next save returns is the number of records stored once it is done. *)
Theorem ids_count_saves (db : database) :
  saved_from_new db ->
  map id (document_metadata db)
  = map Z.of_nat (seq 1 (List.length (document_metadata db))) /\
  NoDup (map id (document_metadata db)) /\
  (forall io now path metadata hash db' rowid,
      save_metadata io db now path metadata hash = Ok (db', rowid) ->
      rowid = Z.of_nat (List.length (document_metadata db')) /\
      id (last (document_metadata db') (mkRow 0 [] [] [] [] [])) = rowid).
Proof.
  intros Hreach. pose proof (saved_from_new_numbered Hreach) as Hn.
  split; [apply Hn|]. split.
  - rewrite (proj1 Hn). apply NoDup_map_of_nat, seq_NoDup.
  - intros io now path metadata hash db' rowid Hsave.
    pose proof Hsave as Hinv. apply save_metadata_inv in Hinv as [Hid ->].
    pose proof (next_rowid_numbered Hn Hid) as ->.
    cbn [document_metadata]. rewrite length_app, last_last. simpl. split; [lia | reflexivity].
Qed.

Lemma ids_count_saves_witness :
  map id (document_metadata db_before_clock_change) = [1].
Proof.
  refine (proj1 (@ids_count_saves db_before_clock_change _)).
  eapply saved_more; [apply saved_nothing | apply db_before_clock_change_reached].
Defined.

(** X18.  When every record was saved at a later clock reading than the
    one before it, [get_all_metadata] lists the records in the reverse of
    the order in which they were saved. *)
Theorem listing_reverses_saves (db : database) :
  StronglySorted (fun r1 r2 => str_ltb (timestamp r1) (timestamp r2) = true)
    (document_metadata db) ->
  get_all_metadata db = rev (document_metadata db).
Proof.
  unfold get_all_metadata. generalize (document_metadata db) as rows. clear db.
  induction rows as [|r rows IH] using rev_ind; intros Hsorted; [reflexivity|].
  assert (Hparts :
            StronglySorted (fun r1 r2 => str_ltb (timestamp r1) (timestamp r2) = true) rows /\
            forall y, In y rows -> str_ltb (timestamp y) (timestamp r) = true).
  { clear IH. induction rows as [|x rows IHrows]; simpl in *.
    - split; [constructor | intros y []].
    - inversion Hsorted as [|? ? Hs Hall]; subst.
      destruct (IHrows Hs) as [Hs' Hlt]. split.
      + constructor; [exact Hs'|].
        rewrite Forall_forall in *. intros y Hy. apply Hall, in_or_app. now left.
      + intros y [<-|Hy]; [|now apply Hlt].
        rewrite Forall_forall in Hall. apply Hall, in_or_app. right. now left. }
  destruct Hparts as [Hrows Hlast].
  rewrite insertion_sort_last_first, rev_app_distr, (IH Hrows); [reflexivity|].
  intros y Hy. unfold timestamp_desc, str_leb. now rewrite (Hlast y Hy).
Qed.

Definition db_two_saves : database :=
  mkDatabase
    (document_metadata db_before_clock_change ++
       [mkRow 2 (lit "b.csv") (lit "b.csv") sample_hash
              (lit "2024-10-27T02:00:10.500000") (dumps false sample_metadata)])
    2.

Lemma listing_reverses_saves_witness :
  map id (get_all_metadata db_two_saves) = [2; 1].
Proof.
  rewrite (@listing_reverses_saves db_two_saves); [reflexivity|].
  repeat constructor.
Defined.

(** ** The window over a session *)

(** What every state of the window satisfies: when a mapping is shown, the
    hash shown is its hash, the mapping is not empty and a file is
    selected. *)
Definition shows_hash_of_metadata (g : gui) : Prop :=
  match current_metadata g with
  | Some metadata =>
      hash_metadata metadata = Ok (hash_var g) /\
      metadata <> [] /\
      current_file_path g <> None
  | None => True
  end.

Lemma extract_thread_result (env : Env) (g : gui) (path : str) :
  current_file_path g = Some path ->
  exists metadata,
    extract_metadata env path = Ok metadata /\ metadata <> [] /\
    _extract_metadata_thread env g
    = _update_metadata_display g metadata
        (SHA256.hexdigest (map Z.of_N (dumps true metadata))).
Proof.
  intros Hpath. unfold _extract_metadata_thread. rewrite Hpath.
  destruct (extract_metadata_shape env path) as (metadata & Hres & _ & Hne).
  exists metadata. rewrite Hres. cbn [bind]. rewrite hash_metadata_total. cbn [bind].
  repeat split; assumption.
Qed.

Lemma gui_step_keeps (env : Env) (g : gui) (ev : event) :
  shows_hash_of_metadata g -> shows_hash_of_metadata (gui_step env g ev).
Proof.
  intros Hg. destruct ev as [chosen| |io now]; cbn [gui_step].
  - unfold browse_file. destruct chosen as [|c chosen]; [exact Hg|].
    unfold shows_hash_of_metadata in *. cbn.
    destruct (current_metadata g); [|exact I].
    destruct Hg as (Hh & Hne & _). repeat split; try assumption. discriminate.
  - unfold gui_extract_metadata.
    destruct (current_file_path g) as [[|c path]|] eqn:Hpath; try exact Hg.
    destruct (@extract_thread_result env (set_status g (lit "Extracting metadata..."))
                (c :: path) Hpath)
      as (metadata & _ & Hne & ->).
    unfold shows_hash_of_metadata. cbn.
    repeat split; [apply hash_metadata_total | exact Hne | rewrite Hpath; discriminate].
  - unfold save_to_database.
    destruct (current_metadata g) as [[|item metadata]|] eqn:Hm; try exact Hg.
    destruct (current_file_path g) as [path|] eqn:Hpath;
      [|destruct (connect_error io); exact Hg].
    destruct (save_metadata _ _ _ _ _ _) as [[db' record_id]|e]; [|exact Hg].
    unfold shows_hash_of_metadata in *. cbn. rewrite Hm in *. rewrite Hpath in *.
    exact Hg.
Qed.

Lemma gui_run_keeps (env : Env) (g : gui) (events : list event) :
  shows_hash_of_metadata g -> shows_hash_of_metadata (gui_run env g events).
Proof.
  unfold gui_run. apply fold_left_invariant. intros s ev. apply gui_step_keeps.
Qed.

(** X19.  Throughout a session, whenever the window holds a metadata
    mapping, the hash field holds the hash of exactly that mapping: the hash
    that the save button stores is never stale. *)
Theorem gui_hash_never_stale (env : Env) (db : database) (events : list event)
    (metadata : dict) :
  current_metadata (gui_run env (gui_init db) events) = Some metadata ->
  hash_metadata metadata = Ok (hash_var (gui_run env (gui_init db) events)).
Proof.
  intros Hm.
  pose proof (@gui_run_keeps env (gui_init db) events I) as Hg.
  unfold shows_hash_of_metadata in Hg. rewrite Hm in Hg. apply Hg.
Qed.

Definition sample_session : list event :=
  [ Browse (lit "data/people.csv"); Extract ].

Lemma gui_hash_never_stale_witness :
  hash_metadata (error_result (lit "Failed to extract CSV metadata: invalid start byte"))
  = Ok (hash_var (gui_run sample_broken_csv_env (gui_init create_tables) sample_session)).
Proof.
  apply (@gui_hash_never_stale sample_broken_csv_env create_tables sample_session).
  reflexivity.
Defined.

(** X20.  At any point of a session the save button either leaves the
    table as it is, or appends exactly one record: the selected path, the
    mapping shown, serialised in its insertion order, the hash of that
    mapping, and the clock reading of the save. *)
Theorem gui_save_appends (env : Env) (db : database) (events : list event)
    (io : storage) (now : str) :
  let g := gui_run env (gui_init db) events in
  let g' := save_to_database g io now in
  document_metadata (db_manager g') = document_metadata (db_manager g) \/
  exists metadata path new_row,
    current_metadata g = Some metadata /\
    current_file_path g = Some path /\
    document_metadata (db_manager g')
    = document_metadata (db_manager g) ++ [new_row] /\
    file_path new_row = path /\
    file_name new_row = basename path /\
    metadata_json new_row = dumps false metadata /\
    hash_metadata metadata = Ok (metadata_hash new_row) /\
    timestamp new_row = now.
Proof.
  intros g g'. subst g'.
  pose proof (@gui_run_keeps env (gui_init db) events I) as Hg. fold g in Hg.
  unfold save_to_database, shows_hash_of_metadata in *.
  destruct (current_metadata g) as [[|item metadata]|] eqn:Hm; try (now left).
  destruct (current_file_path g) as [path|] eqn:Hpath;
    [|destruct (connect_error io); now left].
  destruct (save_metadata _ _ _ _ _ _) as [[db' record_id]|e] eqn:Hsave; [|now left].
  right. apply save_metadata_inv in Hsave as [_ ->].
  exists (item :: metadata), path. eexists.
  repeat split; cbn; try reflexivity. apply Hg.
Qed.

Lemma gui_save_appends_witness :
  exists new_row,
    document_metadata
      (db_manager
         (save_to_database
            (gui_run sample_broken_csv_env (gui_init create_tables) sample_session)
            storage_ok (lit "2024-06-01T10:00:00.000000")))
    = [new_row] /\
    file_name new_row = lit "people.csv".
Proof.
  destruct (@gui_save_appends sample_broken_csv_env create_tables sample_session
              storage_ok (lit "2024-06-01T10:00:00.000000"))
    as [Hsame|(metadata & path & new_row & _ & Hpath & Hrows & _ & Hname & _)].
  - vm_compute in Hsame. discriminate Hsame.
  - exists new_row. split; [exact Hrows|].
    injection Hpath as <-. exact Hname.
Defined.

(** X21.  Selecting another file after an extraction does not clear what is
    shown.  When the storage layer does not fail, the newly selected path
    and the clock reading have no lone surrogate and an id is left, a save
    then stores the newly selected path together with the metadata and hash
    extracted from the file selected before. *)
Theorem save_after_reselect (env : Env) (g : gui) (a b : str) (io : storage) (now : str)
    (metadata : dict) (rowid : Z) :
  a <> [] -> b <> [] ->
  extract_metadata env a = Ok metadata ->
  connect_error io = None -> write_error io = None ->
  encodable b = true -> encodable now = true ->
  next_rowid (db_manager g) = Ok rowid ->
  db_manager (gui_run env g [Browse a; Extract; Browse b; Save io now])
  = mkDatabase
      (document_metadata (db_manager g) ++
         [mkRow rowid b (basename b)
                (SHA256.hexdigest (map Z.of_N (dumps true metadata)))
                now (dumps false metadata)])
      rowid.
Proof.
  intros Ha Hb Hres Hconnect Hwrite Hpath Hnow Hid.
  destruct a as [|ca a]; [contradiction|]. destruct b as [|cb b]; [contradiction|].
  unfold gui_run. cbn [fold_left gui_step].
  change (gui_extract_metadata env (browse_file g (ca :: a)))
    with (_extract_metadata_thread env
            (set_status (browse_file g (ca :: a)) (lit "Extracting metadata..."))).
  destruct (@extract_thread_result env
              (set_status (browse_file g (ca :: a)) (lit "Extracting metadata..."))
              (ca :: a) eq_refl)
    as (metadata' & Hres' & Hne & ->).
  rewrite Hres in Hres'. injection Hres' as <-.
  destruct metadata as [|item metadata]; [contradiction|].
  unfold save_to_database, browse_file, _update_metadata_display, set_status.
  cbn [current_metadata current_file_path hash_var db_manager file_path_var metadata_text].
  rewrite (@save_metadata_admitted io (db_manager g) now (cb :: b) (item :: metadata)
             (SHA256.hexdigest (map Z.of_N (dumps true (item :: metadata)))) rowid);
    [reflexivity | | exact Hid].
  repeat split; try assumption. apply hexdigest_encodable.
Qed.

Lemma save_after_reselect_witness :
  map file_path
    (document_metadata
       (db_manager
          (gui_run sample_csv_env (gui_init create_tables)
             [ Browse (lit "table.csv"); Extract; Browse (lit "notes.txt");
               Save storage_ok (lit "2024-06-01T10:00:00.000000") ])))
  = [lit "notes.txt"] /\
  map metadata_json
    (document_metadata
       (db_manager
          (gui_run sample_csv_env (gui_init create_tables)
             [ Browse (lit "table.csv"); Extract; Browse (lit "notes.txt");
               Save storage_ok (lit "2024-06-01T10:00:00.000000") ])))
  = [dumps false
       [ (lit "column_count", VInt 3);
         (lit "column_names", VList [VStr (lit "a"); VStr (lit "b"); VStr (lit "c")]);
         (lit "row_count", VInt 2) ]].
Proof.
  rewrite (@save_after_reselect sample_csv_env (gui_init create_tables)
             (lit "table.csv") (lit "notes.txt") storage_ok
             (lit "2024-06-01T10:00:00.000000")
             [ (lit "column_count", VInt 3);
               (lit "column_names", VList [VStr (lit "a"); VStr (lit "b"); VStr (lit "c")]);
               (lit "row_count", VInt 2) ]
             1);
    [split; reflexivity | discriminate | discriminate | reflexivity | reflexivity
    | reflexivity | reflexivity | reflexivity | reflexivity].
Defined.

(** X22.  As long as no extraction was run, the save button stores nothing,
    whatever files were selected and however often it is pressed. *)
Theorem nothing_saved_before_extract (env : Env) (db : database) (events : list event) :
  ~ In Extract events ->
  db_manager (gui_run env (gui_init db) events) = db /\
  current_metadata (gui_run env (gui_init db) events) = None.
Proof.
  intros Hno.
  assert (Hinv : forall g,
             db_manager g = db /\ current_metadata g = None ->
             db_manager (gui_run env g events) = db /\
             current_metadata (gui_run env g events) = None).
  { unfold gui_run. induction events as [|ev events IH]; intros g Hg; [exact Hg|].
    simpl. apply IH; [intros Hin; apply Hno; now right|].
    destruct Hg as [Hdb Hm].
    destruct ev as [chosen| |io now]; cbn [gui_step].
    - unfold browse_file. destruct chosen; cbn; now split.
    - exfalso. apply Hno. now left.
    - unfold save_to_database. rewrite Hm. cbn. now split. }
  apply Hinv. split; reflexivity.
Qed.

Lemma nothing_saved_before_extract_witness :
  db_manager
    (gui_run no_files (gui_init db_two_saves)
       [ Save storage_ok (lit "2024-06-01T10:00:00.000000"); Browse (lit "a.pdf");
         Save storage_ok (lit "2024-06-01T10:00:05.000000") ])
  = db_two_saves.
Proof.
  refine (proj1 (@nothing_saved_before_extract no_files db_two_saves _ _)).
  simpl. intros H. decompose [or] H; try discriminate; contradiction.
Defined.

(** X23.  With a file selected, the extract button always ends with the
    result of [extract_metadata] shown together with its hash and with the
    status ["Metadata extraction complete"], also when that result is an
    error mapping; the worker's [except] branch is never taken. *)
Theorem extract_button_completes (env : Env) (g : gui) (c : N) (path : str) :
  current_file_path g = Some (c :: path) ->
  exists metadata,
    extract_metadata env (c :: path) = Ok metadata /\
    current_metadata (gui_extract_metadata env g) = Some metadata /\
    hash_metadata metadata = Ok (hash_var (gui_extract_metadata env g)) /\
    metadata_text (gui_extract_metadata env g) = dumps_indent metadata /\
    status_var (gui_extract_metadata env g) = lit "Metadata extraction complete" /\
    db_manager (gui_extract_metadata env g) = db_manager g.
Proof.
  intros Hpath. unfold gui_extract_metadata. rewrite Hpath.
  destruct (@extract_thread_result env (set_status g (lit "Extracting metadata..."))
              (c :: path) Hpath)
    as (metadata & Hres & _ & ->).
  exists metadata. repeat split; try assumption. apply hash_metadata_total.
Qed.

Lemma extract_button_completes_witness :
  status_var (gui_extract_metadata no_files
                (browse_file (gui_init create_tables) (lit "gone.xlsx")))
  = lit "Metadata extraction complete".
Proof.
  destruct (@extract_button_completes no_files
              (browse_file (gui_init create_tables) (lit "gone.xlsx"))
              103%N (lit "one.xlsx") eq_refl)
    as (metadata & _ & _ & _ & _ & Hstatus & _).
  exact Hstatus.
Defined.

(** The text shown for a nested mapping, as [json.dumps(..., indent=4)]
    lays it out. *)
Example dumps_indent_nested :
  dumps_indent [ (lit "a", VList [VInt 1; VList [VStr (lit "x"); VNone]; VList []]);
                 (lit "c", VInt (-3)) ]
  = lit "{" ++ [10%N] ++ lit "    " ++ [quote] ++ lit "a" ++ [quote] ++ lit ": ["
    ++ [10%N] ++ lit "        1,"
    ++ [10%N] ++ lit "        ["
    ++ [10%N] ++ lit "            " ++ [quote] ++ lit "x" ++ [quote] ++ lit ","
    ++ [10%N] ++ lit "            null"
    ++ [10%N] ++ lit "        ],"
    ++ [10%N] ++ lit "        []"
    ++ [10%N] ++ lit "    ],"
    ++ [10%N] ++ lit "    " ++ [quote] ++ lit "c" ++ [quote] ++ lit ": -3"
    ++ [10%N] ++ lit "}".
Proof. vm_compute. reflexivity. Qed.

(** X24.  In a database that started as a new file, a save completes when
    the storage layer does not fail, neither the path nor the hash nor the
    clock reading holds a lone surrogate, and fewer than 2^63 - 1 records
    are stored; it then returns the record count plus one and stores one
    more record.  Conversely a save that completes met all these
    conditions: otherwise it raises. *)
Theorem save_completes (io : storage) (db : database) (now path : str)
    (metadata : dict) (hash : str) :
  saved_from_new db ->
  (save_admitted io now path hash ->
   Z.of_nat (List.length (document_metadata db)) < max_rowid ->
   exists db',
     save_metadata io db now path metadata hash
     = Ok (db', Z.of_nat (List.length (document_metadata db)) + 1) /\
     List.length (document_metadata db') = S (List.length (document_metadata db))) /\
  (forall db' rowid,
      save_metadata io db now path metadata hash = Ok (db', rowid) ->
      save_admitted io now path hash /\
      Z.of_nat (List.length (document_metadata db)) < max_rowid).
Proof.
  intros Hreach. destruct (saved_from_new_numbered Hreach) as [Hids Hseq].
  assert (Hlargest :
            fold_left Z.max (map id (document_metadata db)) (sqlite_sequence db)
            = Z.of_nat (List.length (document_metadata db))).
  { rewrite Hids, Hseq. apply fold_left_max_bounded, Forall_forall.
    intros x Hx. apply in_map_iff in Hx as (n & <- & Hn). apply in_seq in Hn. lia. }
  split.
  - intros Hadm Hlen.
    assert (Hid : next_rowid db = Ok (Z.of_nat (List.length (document_metadata db)) + 1)).
    { unfold next_rowid. rewrite Hlargest.
      destruct (max_rowid <=? _) eqn:E; [apply Z.leb_le in E; lia | reflexivity]. }
    rewrite (save_metadata_admitted db metadata Hadm Hid).
    eexists. split; [reflexivity|].
    cbn [document_metadata]. rewrite length_app. simpl. lia.
  - intros db' rowid Hsave. split; [eapply save_metadata_needs, Hsave|].
    apply save_metadata_inv in Hsave as [Hid _].
    unfold next_rowid in Hid. rewrite Hlargest in Hid.
    destruct (max_rowid <=? _) eqn:E; [discriminate Hid|]. now apply Z.leb_gt in E.
Qed.

Lemma save_completes_witness :
  exists db',
    save_metadata storage_ok db_before_clock_change (lit "2024-10-27T02:00:10.500000")
      (lit "b.csv") sample_metadata sample_hash
    = Ok (db', 2).
Proof.
  assert (Hreach : saved_from_new db_before_clock_change).
  { eapply saved_more; [apply saved_nothing | apply db_before_clock_change_reached]. }
  destruct (@save_completes storage_ok db_before_clock_change
              (lit "2024-10-27T02:00:10.500000") (lit "b.csv") sample_metadata
              sample_hash Hreach) as [Hok _].
  destruct Hok as (db' & Hsave & _); [repeat split; reflexivity | reflexivity |].
  exists db'. exact Hsave.
Defined.
